(** * Casper snap: transaction decoding, argument formatting and signing

    A shallow embedding of [packages/snap/src/utils.ts] and of the snap's
    request handlers ([getCSPRAddress], [promptUserDeployInfo], [sign],
    [signMessage], [onRpcRequest]), together with the properties of the
    decoder, the formatter and the signature engine.

    The JavaScript runtime, [@ethersproject/bignumber], [casper-js-sdk] and
    the MetaMask host are not part of the repository.  What the code needs
    from the runtime and from [FixedNumber] is modelled concretely (modules
    [Js] and [Ethers]); the SDK objects are records holding what the code
    reads from them, a [CLValue] being the SDK's object with its payload
    under the member named after its type; the host services and the
    signature primitives are the fields of the class [Host], each a call
    that returns or throws. *)

From Stdlib Require Import ZArith NArith String Ascii List Lia.
From Stdlib.Strings Require Import Byte.
From stdpp Require Import base option list strings gmap.

Local Open Scope string_scope.

(** ** Thrown values and completion of a JavaScript call *)

(** A thrown [Error]: its [name] and its [message]. *)
Record Exn : Type := mkExn { exn_name : string; exn_message : string }.

(** Normal completion with a value, or abrupt completion with a thrown
    value. *)
Inductive completion (A : Type) : Type :=
| Return (a : A)
| Throw (e : Exn).
Arguments Return {A} a.
Arguments Throw {A} e.

Definition cbind {A B : Type} (c : completion A) (k : A -> completion B)
  : completion B :=
  match c with
  | Return a => k a
  | Throw e => Throw e
  end.

Notation "'let?' x ':=' c 'in' k" := (cbind c (fun x => k))
  (at level 10, x pattern, c at level 100, k at level 200).

(** [try { body } catch { handler }] for a body without side effects. *)
Definition try_catch {A : Type} (body : completion A) (handler : Exn -> A) : A :=
  match body with
  | Return a => a
  | Throw e => handler e
  end.

(** ** The JavaScript runtime, as far as the code uses it *)

Module Js.

Definition chars : string -> list ascii := list_ascii_of_string.
Definition str : list ascii -> string := string_of_list_ascii.

Definition is_digit (c : ascii) : bool :=
  let n := N_of_ascii c in ((48 <=? n) && (n <=? 57))%N.

Definition is_zero_char (c : ascii) : bool := Ascii.eqb c "0"%char.
Definition is_dot (c : ascii) : bool := Ascii.eqb c "."%char.

(** The character of a decimal digit. *)
Definition digit_char (n : N) : ascii := ascii_of_N (48 + n).

(** The decimal digits of [n], most significant first; [fuel] bounds the
    number of divisions. *)
Fixpoint digits_of (fuel : nat) (n : N) : list ascii :=
  match fuel with
  | O => [digit_char (n mod 10)]
  | S fuel' =>
      if (n <? 10)%N then [digit_char n]
      else digits_of fuel' (n / 10) ++ [digit_char (n mod 10)]
  end.

(** The decimal digits of [n]: the number of bits of [n] is fuel
    enough. *)
Definition digits (n : N) : list ascii :=
  digits_of (N.to_nat (N.size n)) n.

(** [BigNumber.prototype.toString] / [Number.prototype.toString] of a
    non-negative integer. *)
Definition N_toString (n : N) : string := str (digits n).

(** [String(z)] for an integer. *)
Definition Z_toString (z : Z) : string :=
  match z with
  | Zneg p => "-" +:+ N_toString (Npos p)
  | _ => N_toString (Z.to_N z)
  end.

Definition digit_value (c : ascii) : option N :=
  if is_digit c then Some (N_of_ascii c - 48)%N else None.

(** Reads decimal digits into the accumulator; [None] at a character
    that is not a digit. *)
Fixpoint value_acc (s : list ascii) (acc : N) : option N :=
  match s with
  | [] => Some acc
  | c :: rest =>
      match digit_value c with
      | Some d => value_acc rest (10 * acc + d)
      | None => None
      end
  end.

(** The value of a non-empty string of decimal digits
    ([BigNumber.from(s)]). *)
Definition digits_value (s : list ascii) : option N :=
  match s with
  | [] => None
  | _ => value_acc s 0
  end.

(** [Array.prototype.join]. *)
Fixpoint join (sep : string) (l : list string) : string :=
  match l with
  | [] => ""
  | [x] => x
  | x :: rest => x +:+ sep +:+ join sep rest
  end.

(** [Array.prototype.toString] of an array of strings. *)
Definition Array_toString (l : list string) : string := join "," l.

(** [Uint8Array.prototype.toString]: the decimal bytes joined by commas. *)
Definition Uint8Array_toString (bs : list byte) : string :=
  join "," (map (fun b => N_toString (Byte.to_N b)) bs).

(** [String.prototype.split] on a one-character separator. *)
Fixpoint split_on (sep : ascii) (s : list ascii) : list (list ascii) :=
  match s with
  | [] => [[]]
  | c :: rest =>
      if Ascii.eqb c sep then [] :: split_on sep rest
      else match split_on sep rest with
           | [] => [[c]]
           | w :: ws => (c :: w) :: ws
           end
  end.

(** Lower-case hexadecimal digit of a value below 16. *)
Definition hex_digit (n : N) : ascii :=
  if (n <? 10)%N then ascii_of_N (48 + n) else ascii_of_N (87 + n).

(** Value of a hexadecimal digit, either case. *)
Definition hex_value (c : ascii) : option N :=
  let n := N_of_ascii c in
  if ((48 <=? n) && (n <=? 57))%N then Some (n - 48)%N
  else if ((97 <=? n) && (n <=? 102))%N then Some (n - 87)%N
  else if ((65 <=? n) && (n <=? 70))%N then Some (n - 55)%N
  else None.

Definition byte_of_N (n : N) : byte :=
  match Byte.of_N n with Some b => b | None => x00 end.

(** [Conversions.encodeBase16] / [Hash.toHex]: two lower-case digits per
    byte. *)
Fixpoint encodeBase16_chars (bs : list byte) : list ascii :=
  match bs with
  | [] => []
  | b :: rest =>
      let n := Byte.to_N b in
      hex_digit (n / 16) :: hex_digit (n mod 16) :: encodeBase16_chars rest
  end.

Definition encodeBase16 (bs : list byte) : string :=
  str (encodeBase16_chars bs).

(** [Buffer.from(s, 'hex')]: decodes pairs of hexadecimal digits and stops
    at the first pair that is not one. *)
Fixpoint decode_hex_chars (s : list ascii) : list byte :=
  match s with
  | h :: l :: rest =>
      match hex_value h, hex_value l with
      | Some a, Some b => byte_of_N (16 * a + b) :: decode_hex_chars rest
      | _, _ => []
      end
  | _ => []
  end.

Definition Buffer_from_hex (s : string) : list byte :=
  decode_hex_chars (chars s).

End Js.

(** ** [FixedNumber] of [@ethersproject/bignumber]

    The library is a dependency, not code of the repository; this is its
    version 5 behaviour for the default format [fixed128x18], restricted to
    the three calls [convertMotesToCasper] makes: [FixedNumber.from],
    [divUnsafe] and [toString]. *)

Module Ethers.
Import Js.

Definition decimals : nat := 18.

Definition fault (msg : string) : Exn := mkExn "Error" msg.

(** Removes the leading ["0"] characters. *)
Fixpoint drop_zeros (s : list ascii) : list ascii :=
  match s with
  | c :: rest => if is_zero_char c then drop_zeros rest else s
  | [] => []
  end.

(** [while (fraction[fraction.length - 1] === "0") fraction = ...]:
    removes the trailing ["0"] characters. *)
Definition trim_trailing_zeros (s : list ascii) : list ascii :=
  rev (drop_zeros (rev s)).

(** [while (fraction.length < n) fraction += "0"]. *)
Definition pad_right (n : nat) (s : list ascii) : list ascii :=
  s ++ repeat "0"%char (n - length s).

(** [while (fraction.length < n) fraction = "0" + fraction]. *)
Definition pad_left (n : nat) (s : list ascii) : list ascii :=
  repeat "0"%char (n - length s) ++ s.

(** [if (!s) { s = "0"; }]: the string, or ["0"] when it is empty. *)
Definition or_zero (s : list ascii) : list ascii :=
  match s with
  | [] => ["0"%char]
  | _ => s
  end.

(** The test [value.match(/^-?[0-9.]+$/)]. *)
Definition matches_decimal (s : list ascii) : bool :=
  let body := match s with
              | c :: rest => if Ascii.eqb c "-"%char then rest else s
              | [] => s
              end in
  match body with
  | [] => false
  | _ => forallb (fun c => is_digit c || is_dot c) body
  end.

Definition multiplier (d : nat) : N := (10 ^ N.of_nat d)%N.

(** [parseFixed(value, decimals)] on the characters of [value]. *)
Definition parseFixed_chars (v : list ascii) (d : nat) : completion Z :=
  if negb (matches_decimal v) then Throw (fault "invalid decimal value")
  else
    let negative := match v with
                    | c :: _ => Ascii.eqb c "-"%char
                    | [] => false
                    end in
    let v := if negative then tl v else v in
    if bool_decide (v = ["."%char]) then Throw (fault "missing value")
    else
      let comps := split_on "."%char v in
      if (2 <? length comps)%nat then Throw (fault "too many decimal points")
      else
        let whole := or_zero (nth 0 comps []) in
        let fraction := or_zero (nth 1 comps []) in
        let fraction := trim_trailing_zeros fraction in
        if (d <? length fraction)%nat
        then Throw (fault "fractional component exceeds decimals")
        else
          let fraction := pad_right d (or_zero fraction) in
          match digits_value whole, digits_value fraction with
          | Some wholeValue, Some fractionValue =>
              let wei := (Z.of_N wholeValue * Z.of_N (multiplier d)
                          + Z.of_N fractionValue)%Z in
              Return (if negative then (wei * -1)%Z else wei)
          | _, _ => Throw (fault "invalid BigNumber string")
          end.

Definition parseFixed (value : string) (d : nat) : completion Z :=
  parseFixed_chars (chars value) d.

(** The first group of the match of [fraction] against the pattern
    "digits ending in a non-zero digit, or else one zero", followed by
    zeros: the digits up to the last non-zero one, or ["0"] when there is
    none. *)
Definition strip_fraction (f : list ascii) : list ascii :=
  or_zero (trim_trailing_zeros f).

(** [formatFixed(value, decimals)], as characters. *)
Definition formatFixed_chars (value : Z) (d : nat) : list ascii :=
  let negative := (value <? 0)%Z in
  let v := Z.abs_N value in
  let fraction := pad_left d (digits (v mod multiplier d)) in
  let fraction := strip_fraction fraction in
  let whole := digits (v / multiplier d) in
  let r := match d with
           | O => whole
           | _ => (whole ++ "."%char :: fraction)%list
           end in
  if negative then "-"%char :: r else r.

Definition formatFixed (value : Z) (d : nat) : string :=
  str (formatFixed_chars value d).

(** A [FixedNumber] of format [fixed128x18]: its decimal string. *)
Record FixedNumber : Type := mkFixed { _value : string }.

(** [FixedNumber.fromString(value)]; the format is signed, so a negative
    value passes. *)
Definition fromString (value : string) : completion FixedNumber :=
  let? numeric := parseFixed value decimals in
  Return (mkFixed (formatFixed numeric decimals)).

(** [FixedNumber.fromValue(value, decimals)]. *)
Definition fromValue (value : Z) (d : nat) : completion FixedNumber :=
  fromString (formatFixed value d).

(** [FixedNumber.from(value)] for a string. *)
Definition from_string (value : string) : completion FixedNumber :=
  fromString value.

(** [FixedNumber.from(value)] for a number that is an integer. *)
Definition from_number (value : Z) : completion FixedNumber :=
  fromValue value 0.

(** [this.divUnsafe(other)]; [BigNumber.div] truncates and faults on a
    zero divisor. *)
Definition divUnsafe (this other : FixedNumber) : completion FixedNumber :=
  let? a := parseFixed (_value this) decimals in
  let? b := parseFixed (_value other) decimals in
  if (b =? 0)%Z then Throw (fault "division-by-zero")
  else fromValue (Z.quot (a * Z.of_N (multiplier decimals)) b) decimals.

Definition toString (x : FixedNumber) : string := _value x.

End Ethers.

(** ** The objects of [casper-js-sdk] that the code reads *)

Module TypeID.
(** The type tags of [TypeID]. *)
Inductive t : Type :=
| Bool | I32 | I64 | U8 | U32 | U64 | U128 | U256 | U512 | Unit | String
| Key | URef | Option | List | ByteArray | Result | Map
| Tuple1 | Tuple2 | Tuple3 | Any | PublicKey.
End TypeID.

(** The tags without a [case] of their own in [parseDeployArg]. *)
Inductive OtherTag : Type :=
| TBool | TI32 | TI64 | TU8 | TU32 | TU64 | TU128 | TU256 | TU512
| TString | TAny.

Definition OtherTag_id (t : OtherTag) : TypeID.t :=
  match t with
  | TBool => TypeID.Bool | TI32 => TypeID.I32 | TI64 => TypeID.I64
  | TU8 => TypeID.U8 | TU32 => TypeID.U32 | TU64 => TypeID.U64
  | TU128 => TypeID.U128 | TU256 => TypeID.U256 | TU512 => TypeID.U512
  | TString => TypeID.String | TAny => TypeID.Any
  end.

(** A public key: what [toHex()] returns. *)
Record PublicKey : Type := mkPublicKey { pk_toHex : string }.

(** An account hash: what [toHex()] and [toPrefixedString()] return. *)
Record AccountHash : Type :=
  mkAccountHash { ah_toHex : string; ah_toPrefixedString : string }.

(** A deploy argument: the SDK's [CLValue], an object holding its [type]
    and, under the member named after the type ([option], [list], [map],
    [tuple1], [tuple2], [tuple3], [result], [publicKey], ...), its payload.
    The SDK sets that member whenever it builds or parses a value, so a
    value always has the payload of its type.  [raw] is the payload of a
    value the code only prints; [typeName] is [type.toString()]. *)
#[local] Unset Elimination Schemes.
Inductive CLValue : Type :=
| CLUnit
| CLKey (raw : string)
| CLURef (raw : string)
| CLOption (inner : option CLValue) (typeName : string)
| CLList (elements : list CLValue)
| CLByteArray (raw : list byte)
| CLResult (isSuccess : bool) (inner : CLValue)
| CLMap (entries : list (CLValue * CLValue))
| CLTuple1 (inner : CLValue)
| CLTuple2 (inner1 inner2 : CLValue)
| CLTuple3 (inner1 inner2 inner3 : CLValue)
| CLPublicKey (publicKey : PublicKey)
| CLOther (tag : OtherTag) (raw : string).
#[local] Set Elimination Schemes.

(** [arg.type.getTypeID()]. *)
Definition getTypeID (arg : CLValue) : TypeID.t :=
  match arg with
  | CLUnit => TypeID.Unit
  | CLKey _ => TypeID.Key
  | CLURef _ => TypeID.URef
  | CLOption _ _ => TypeID.Option
  | CLList _ => TypeID.List
  | CLByteArray _ => TypeID.ByteArray
  | CLResult _ _ => TypeID.Result
  | CLMap _ => TypeID.Map
  | CLTuple1 _ => TypeID.Tuple1
  | CLTuple2 _ _ => TypeID.Tuple2
  | CLTuple3 _ _ _ => TypeID.Tuple3
  | CLPublicKey _ => TypeID.PublicKey
  | CLOther t _ => OtherTag_id t
  end.

(** [Args]: the entries of the [Map] from argument name to value, in
    iteration order. *)
Definition Args : Type := list (string * CLValue).

(** [Map.prototype.get]. *)
Fixpoint Map_get (key : string) (m : Args) : option CLValue :=
  match m with
  | [] => None
  | (k, v) :: rest => if String.eqb k key then Some v else Map_get key rest
  end.

Record TransferDeployItem : Type := mkTransfer { transfer_args : Args }.

Record ModuleBytes : Type :=
  mkModuleBytes { moduleBytes_bytes : list byte; moduleBytes_args : Args }.

(** A stored contract, by hash or by name, versioned or not: the code reads
    its [entryPoint] and its [args]. *)
Record StoredContract : Type :=
  mkStored { stored_target : string; entryPoint : string; stored_args : Args }.

(** [ExecutableDeployItem]: one optional member per variant. *)
Record ExecutableDeployItem : Type := mkSession {
  transfer : option TransferDeployItem;
  moduleBytes : option ModuleBytes;
  storedContractByHash : option StoredContract;
  storedContractByName : option StoredContract;
  storedVersionedContractByHash : option StoredContract;
  storedVersionedContractByName : option StoredContract
}.

Definition isTransfer (s : ExecutableDeployItem) : bool :=
  bool_decide (is_Some (transfer s)).
Definition isModuleBytes (s : ExecutableDeployItem) : bool :=
  bool_decide (is_Some (moduleBytes s)).
Definition isStoredContractByHash (s : ExecutableDeployItem) : bool :=
  bool_decide (is_Some (storedContractByHash s)).
Definition isStoredContractByName (s : ExecutableDeployItem) : bool :=
  bool_decide (is_Some (storedContractByName s)).

Record DeployHeader : Type :=
  mkHeader { bodyHash : option (list byte); gasPrice : Z }.

Record Deploy : Type :=
  mkDeploy { header : DeployHeader; session : ExecutableDeployItem }.

Record InitiatorAddr : Type := mkInitiator {
  initiator_publicKey : option PublicKey;
  initiator_accountHash : option AccountHash
}.

Record TransactionEntryPoint : Type := mkEntryPoint {
  customEntryPoint : option string;
  entryPoint_type : string;
  entryPoint_toBytes : list byte
}.

Record PaymentLimited : Type :=
  mkLimited { limited_gasPriceTolerance : Z; paymentAmount : Z }.
Record FixedMode : Type :=
  mkFixedMode { fixed_gasPriceTolerance : Z; additionalComputationFactor : Z }.
Record PrepaidMode : Type := mkPrepaid { receipt : list byte }.

Record PricingMode : Type := mkPricing {
  paymentLimited : option PaymentLimited;
  fixed : option FixedMode;
  prepaid : option PrepaidMode
}.

(** A signature attached to a transaction, with the signer's key. *)
Record Approval : Type :=
  mkApproval { signer : PublicKey; signature : list byte }.

(** [Transaction]: the wrapper over a legacy deploy or a version 1
    transaction.  [originDeployV1] is what [getDeploy()] returns;
    [originTransactionV1] tells whether [getTransactionV1()] returns an
    object. *)
Record Transaction : Type := mkTransaction {
  tx_hash : list byte;
  initiatorAddr : InitiatorAddr;
  chainName : string;
  timestamp : Z;
  tx_args : Args;
  tx_entryPoint : TransactionEntryPoint;
  pricingMode : PricingMode;
  originDeployV1 : option Deploy;
  originTransactionV1 : bool;
  approvals : list Approval
}.

(** [transaction.setSignature(signature, publicKey)]: the approval is
    appended to the transaction's approvals. *)
Definition setSignature (sig : list byte) (pk : PublicKey) (t : Transaction)
  : Transaction :=
  {| tx_hash := tx_hash t; initiatorAddr := initiatorAddr t;
     chainName := chainName t; timestamp := timestamp t;
     tx_args := tx_args t; tx_entryPoint := tx_entryPoint t;
     pricingMode := pricingMode t; originDeployV1 := originDeployV1 t;
     originTransactionV1 := originTransactionV1 t;
     approvals := approvals t ++ [mkApproval pk sig] |}.

(** The wire form of a transaction. *)
Inductive Json : Type := JsonText (text : string) | JsonUndefined.

(** The methods of the SDK whose result the code passes on unread. *)
Class Sdk : Type := {
  (** [value.toString()] of a [CLValue] *)
  CLValue_toString : CLValue -> string;
  (** [session.bytes()] *)
  ExecutableDeployItem_bytes : ExecutableDeployItem -> list byte;
  (** [new Date(date).toLocaleString()] *)
  Date_toLocaleString : Z -> string;
  (** [Transaction.fromJson(json)] *)
  Transaction_fromJson : Json -> completion Transaction;
  (** [Transaction.toJSON(transaction)] *)
  Transaction_toJSON : Transaction -> Json;
  (** [transaction.validate()] *)
  Transaction_validate : Transaction -> completion bool;
  (** [PublicKey.fromHex(hex)] *)
  PublicKey_fromHex : string -> completion PublicKey;
  (** [PublicKey.fromBytes(bytes).result] *)
  PublicKey_fromBytes : list byte -> completion PublicKey;
  (** [validate()] returns [true] or throws: it reports a transaction that
      does not verify by an exception, never by [false]. *)
  Transaction_validate_true :
    forall transaction, Transaction_validate transaction <> Return false
}.

(** A JavaScript value shown to the user: a string, an array of strings or
    [undefined]. *)
Inductive JsValue : Type :=
| VString (s : string)
| VArray (l : list string)
| VUndefined.

(** The conversion to string of a template literal. *)
Definition to_string (v : JsValue) : string :=
  match v with
  | VString s => s
  | VArray l => Js.Array_toString l
  | VUndefined => "undefined"
  end.

Definition of_option_string (o : option string) : JsValue :=
  match o with
  | Some s => VString s
  | None => VUndefined
  end.

(** Reading a member of [undefined]. *)
Definition TypeError_undefined (member : string) : Exn :=
  mkExn "TypeError"
    ("Cannot read properties of undefined (reading '" +:+ member +:+ "')").

(** Calling a member that is [undefined]. *)
Definition TypeError_not_a_function (callee : string) : Exn :=
  mkExn "TypeError" (callee +:+ " is not a function").

(** ** [utils.ts] *)

(** [convertMotesToCasper(motesAmount)]. *)
Definition convertMotesToCasper (motesAmount : string) : string :=
  try_catch
    (let? a := Ethers.from_string motesAmount in
     let? b := Ethers.from_number 1000000000 in
     let? q := Ethers.divUnsafe a b in
     Return (Ethers.toString q))
    (fun _ => "0").

Section utils.
Context `{Sdk}.

(** [parseDeployArg(arg)] on a [CLValue].  Each branch reads on [arg]
    itself the members of the class the source casts it to.  [option] and
    [publicKey] are members of a [CLValue]; [elements], [getMap], [value]
    and [isSuccess] are members of the payload classes ([CLValueList],
    [CLValueMap], [CLValueTuple1] to [CLValueTuple3], [CLValueResult]) and
    are [undefined] on the [CLValue] that wraps the payload:
    - [arg.elements.map(...)] reads [map] from [undefined];
    - [result.isSuccess] is [undefined], then [result.value()] calls
      [undefined];
    - [arg.getMap()] and [arg.value()] call [undefined].
    No [CLValue] is an instance of [AccountHash], so the [default] branch
    returns [arg.toString()]. *)
Fixpoint parseDeployArg (arg : CLValue) : completion JsValue :=
  match arg with
  | CLUnit => Return (VString "CLValue Unit")
  | CLKey _ => Return (VString (CLValue_toString arg))
  | CLURef _ => Return (VString (CLValue_toString arg))
  | CLOption inner typeName =>
      match inner with
      | Some value => parseDeployArg value
      | None => Return (VString (CLValue_toString arg +:+ " " +:+ typeName))
      end
  | CLList _ => Throw (TypeError_undefined "map")
  | CLByteArray _ => Return (VString (CLValue_toString arg))
  | CLResult _ _ => Throw (TypeError_not_a_function "result.value")
  | CLMap _ => Throw (TypeError_not_a_function "arg.getMap")
  | CLTuple1 _ => Throw (TypeError_not_a_function "arg.value")
  | CLTuple2 _ _ => Throw (TypeError_not_a_function "arg.value")
  | CLTuple3 _ _ _ => Throw (TypeError_not_a_function "arg.value")
  | CLPublicKey publicKey => Return (VString (pk_toHex publicKey))
  | CLOther _ _ => Return (VString (CLValue_toString arg))
  end.

(** [sanitiseNestedLists(value)]; [value.vectorType] is [undefined] on a
    [CLValue]. *)
Definition sanitiseNestedLists (value : CLValue) : completion JsValue :=
  let? parsedValue := parseDeployArg value in
  match parsedValue with
  | VArray _ =>
      Return (VString ("<" +:+ to_string VUndefined +:+ ">[...]"))
  | _ => Return parsedValue
  end.

(** [obj[key] = value] on an object created by [{}]: the own properties
    after the assignment.  The name [__proto__] reaches the setter of
    [Object.prototype] and adds no own property. *)
Definition set_property (key : string) (value : JsValue)
    (obj : gmap string JsValue) : gmap string JsValue :=
  if String.eqb key "__proto__" then obj else <[key := value]> obj.

(** [parseTransferData(transferDeploy)]. *)
Definition parseTransferData (transferDeploy : TransferDeployItem)
  : gmap string JsValue :=
  let transferArgs : gmap string JsValue := ∅ in
  let transferArgs :=
    set_property "Recipient"
      (of_option_string
         (CLValue_toString <$> Map_get "target" (transfer_args transferDeploy)))
      transferArgs in
  let amount :=
    default ""
      (CLValue_toString <$> Map_get "amount" (transfer_args transferDeploy)) in
  let id :=
    CLValue_toString <$> Map_get "id" (transfer_args transferDeploy) in
  let transferArgs :=
    set_property "Amount" (VString (convertMotesToCasper amount +:+ " CSPR"))
      transferArgs in
  let transferArgs := set_property "Motes" (VString amount) transferArgs in
  let transferArgs :=
    set_property "Transfer ID" (of_option_string id) transferArgs in
  transferArgs.

(** [args.forEach((argument, key) => { deployArgs[key] =
    parseDeployArg(argument); })]. *)
Fixpoint forEach_parse (args : Args) (deployArgs : gmap string JsValue)
  : completion (gmap string JsValue) :=
  match args with
  | [] => Return deployArgs
  | (key, argument) :: rest =>
      let? parsed := parseDeployArg argument in
      forEach_parse rest (set_property key parsed deployArgs)
  end.

(** What [transactionToObject] returns. [gasPrice] is present for a legacy
    deploy only. *)
Record DeployInfo : Type := mkDeployInfo {
  deployHash : string;
  signingKey : string;
  account : option string;
  info_bodyHash : option string;
  info_chainName : string;
  info_timestamp : string;
  info_gasPrice : option string;
  deployType : string;
  deployArgs : gmap string JsValue
}.

Definition LF : string := String (ascii_of_nat 10) "".

(** The label computed into [type] for a legacy deploy. *)
Definition deploy_type (deploy : Deploy) : string :=
  if isTransfer (session deploy) then "Transfer"
  else if isModuleBytes (session deploy) then "WASM-Based Deploy"
  else if isStoredContractByHash (session deploy)
          || isStoredContractByName (session deploy)
  then "Contract Call"
  else "Contract Package Call".

(** The choice of [storedContract]. *)
Definition select_storedContract (s : ExecutableDeployItem)
  : completion StoredContract :=
  match storedContractByHash s with
  | Some c => Return c
  | None =>
  match storedContractByName s with
  | Some c => Return c
  | None =>
  match storedVersionedContractByHash s with
  | Some c => Return c
  | None =>
  match storedVersionedContractByName s with
  | Some c => Return c
  | None =>
      Throw (mkExn "Error"
               ("Stored Contract could not be parsed." +:+ LF
                +:+ "          Provided session code: "
                +:+ Js.Uint8Array_toString (ExecutableDeployItem_bytes s)))
  end end end end.

(** The construction of [deployArgs] for a legacy deploy. *)
Definition deploy_args (deploy : Deploy) : completion (gmap string JsValue) :=
  match transfer (session deploy) with
  | Some t => Return (parseTransferData t)
  | None =>
  match moduleBytes (session deploy) with
  | Some m => forEach_parse (moduleBytes_args m) ∅
  | None =>
      let? storedContract := select_storedContract (session deploy) in
      let? deployArgs := forEach_parse (stored_args storedContract) ∅ in
      Return (set_property "Entry Point"
                (VString (entryPoint storedContract)) deployArgs)
  end end.

(** [transactionToObject(transaction, signingKey)]. *)
Definition transactionToObject (transaction : Transaction)
    (signingKey : string) : completion DeployInfo :=
  let deployAccount :=
    match initiator_publicKey (initiatorAddr transaction) with
    | Some pk => Some (pk_toHex pk)
    | None => ah_toHex <$> initiator_accountHash (initiatorAddr transaction)
    end in
  match originDeployV1 transaction with
  | Some deploy =>
      let type := deploy_type deploy in
      let? deployArgs := deploy_args deploy in
      Return {| deployHash := Js.encodeBase16 (tx_hash transaction);
                signingKey := signingKey;
                account := deployAccount;
                info_bodyHash := Js.encodeBase16 <$> bodyHash (header deploy);
                info_chainName := chainName transaction;
                info_timestamp := Date_toLocaleString (timestamp transaction);
                info_gasPrice := Some (Js.Z_toString (gasPrice (header deploy)));
                deployType := type;
                deployArgs := deployArgs |}
  | None =>
      if originTransactionV1 transaction then
        let? deployArgs := forEach_parse (tx_args transaction) ∅ in
        Return {| deployHash := Js.encodeBase16 (tx_hash transaction);
                  signingKey := signingKey;
                  account := deployAccount;
                  info_bodyHash :=
                    Some (Js.encodeBase16
                            (entryPoint_toBytes (tx_entryPoint transaction)));
                  info_chainName := chainName transaction;
                  info_timestamp :=
                    Date_toLocaleString (timestamp transaction);
                  info_gasPrice := None;
                  deployType :=
                    default (entryPoint_type (tx_entryPoint transaction))
                      (customEntryPoint (tx_entryPoint transaction));
                  deployArgs := deployArgs |}
      else Throw (mkExn "Error" "Unsupported transaction type")
  end.

(** What a request handler returns. *)
Inductive Response : Type :=
| RFalse
| RPublicKey (publicKey : string)
| RDeploy (deploy : Json)
| RSignature (signature : string)
| RError (error : string).

(** [addSignatureAndValidateTransaction(transaction, signature,
    publicKeyHex)]: how the call completes and the transaction object after
    it.  When [PublicKey.fromHex] throws, the object is untouched.
    Otherwise [setSignature] changes the object before [validate] runs, so
    the object carries the signature also when [validate] throws. *)
Definition addSignatureAndValidateTransaction (transaction : Transaction)
    (signature : list byte) (publicKeyHex : string)
  : completion Response * Transaction :=
  match PublicKey_fromHex publicKeyHex with
  | Throw e => (Throw e, transaction)
  | Return publicKey =>
      let transaction := setSignature signature publicKey transaction in
      (let? valid := Transaction_validate transaction in
       if valid
       then Return (RDeploy (Transaction_toJSON transaction))
       else Return (RError "Unable to verify deploy after signature."),
       transaction)
  end.

End utils.

(** ** The snap's request handlers *)

(** The key the derivation service returns for an address index. *)
Record AddressKey : Type := mkAddressKey {
  compressedPublicKey : string;
  compressedPublicKeyBytes : list byte;
  key_publicKey : string;
  privateKeyBytes : option (list byte);
  curve : string
}.

(** The content of a confirmation dialog: what it is built from. *)
Inductive DialogContent : Type :=
| SignDeployDialog (origin : string) (deployInfo : DeployInfo)
    (transaction : Transaction)
| SignMessageDialog (origin : string) (publicKeyHex : string)
    (message : option string).

(** The collaborators of the snap: the host's entropy, key derivation and
    confirmation dialog, and the signature primitives.  Each is a call into
    code outside the repository: it returns a value or throws.  Within one
    invocation a collaborator answers the same call the same way. *)
Class Host : Type := {
  (** [snap.request({method: 'snap_getBip44Entropy', params: {coinType}})] *)
  snap_getBip44Entropy : Z -> completion (list byte);
  (** [(await getBIP44AddressKeyDeriver(node))(addressIndex)] *)
  getBIP44AddressKeyDeriver : list byte -> Z -> completion AddressKey;
  (** [snap.request({method: 'snap_dialog', ...})]: whether the answer is
      truthy *)
  snap_dialog : DialogContent -> completion bool;
  (** [nacl.sign_detached(message, secretKey)] *)
  sign_detached : list byte -> list byte -> completion (list byte);
  (** [ecdsaSign(digest, privateKey).signature] *)
  ecdsaSign : list byte -> list byte -> completion (list byte);
  (** [sha256(bytes)] *)
  sha256 : list byte -> completion (list byte)
}.

(** What an invocation does to the outside, in order: the calls it makes,
    each recorded when it is made, whether it then returns or throws. *)
Inductive Event : Type :=
| EvGetBip44Entropy (coinType : Z)
| EvDeriveKey (addressIndex : Z)
| EvDialog (content : DialogContent)
| EvSignDetached (message secretKey : list byte)
| EvEcdsaSign (digest privateKey : list byte).

(** The state one invocation acts on: the calls made so far, latest last,
    and the [Transaction] object once [Transaction.fromJson] has created
    it. *)
Record World : Type := mkWorld {
  events : list Event;
  transaction_object : option Transaction
}.

Definition initial_world : World := mkWorld [] None.

(** A computation of the snap: from a state to a completion and the state
    it leaves. *)
Definition M (A : Type) : Type := World -> completion A * World.

Definition mret {A : Type} (a : A) : M A := fun w => (Return a, w).

Definition mthrow {A : Type} (e : Exn) : M A := fun w => (Throw e, w).

Definition mbind {A B : Type} (m : M A) (k : A -> M B) : M B :=
  fun w =>
    match m w with
    | (Return a, w') => k a w'
    | (Throw e, w') => (Throw e, w')
    end.

Definition lift {A : Type} (c : completion A) : M A := fun w => (c, w).

Definition emit (e : Event) : M unit :=
  fun w => (Return tt, mkWorld (events w ++ [e]) (transaction_object w)).

Definition store_transaction (t : Transaction) : M unit :=
  fun w => (Return tt, mkWorld (events w) (Some t)).

(** [try { body } catch (error) { handler }]. *)
Definition mtry {A : Type} (body : M A) (handler : Exn -> M A) : M A :=
  fun w =>
    match body w with
    | (Return a, w') => (Return a, w')
    | (Throw e, w') => handler e w'
    end.

Notation "'let*' x ':=' m 'in' k" := (mbind m (fun x => k))
  (at level 10, x name, m at level 100, k at level 200).

(** [String(error)] and [JSON.stringify(error)] of a thrown [Error]. *)
Definition Error_toString (e : Exn) : string :=
  exn_name e +:+ ": " +:+ exn_message e.
Definition JSON_stringify_Error (e : Exn) : string := "{}".

(** [s.slice(2)]. *)
Definition slice2 (s : string) : string := Js.str (drop 2 (Js.chars s)).

(** The bytes of a string ([Buffer.from(s)]). *)
Definition Buffer_from_string (s : string) : list byte :=
  map byte_of_ascii (Js.chars s).

Section snap.
Context `{Sdk} `{Host}.

Definition request_entropy (coinType : Z) : M (list byte) :=
  let* _ := emit (EvGetBip44Entropy coinType) in
  lift (snap_getBip44Entropy coinType).

Definition derive (bip44Node : list byte) (addressIndex : Z) : M AddressKey :=
  let* _ := emit (EvDeriveKey addressIndex) in
  lift (getBIP44AddressKeyDeriver bip44Node addressIndex).

Definition dialog (content : DialogContent) : M bool :=
  let* _ := emit (EvDialog content) in
  lift (snap_dialog content).

Definition nacl_sign_detached (message secretKey : list byte)
  : M (list byte) :=
  let* _ := emit (EvSignDetached message secretKey) in
  lift (sign_detached message secretKey).

Definition secp256k1_ecdsaSign (digest privateKey : list byte)
  : M (list byte) :=
  let* _ := emit (EvEcdsaSign digest privateKey) in
  lift (ecdsaSign digest privateKey).

(** [getCSPRAddress(addressIndex)]. *)
Definition getCSPRAddress (addressIndex : Z) : M Response :=
  let* bip44Node := request_entropy 506 in
  let* addressKey := derive bip44Node addressIndex in
  mtry
    (let* pk :=
       lift (PublicKey_fromBytes
               (Js.Buffer_from_hex
                  ("02" +:+ slice2 (compressedPublicKey addressKey)))) in
     mret (RPublicKey (pk_toHex pk)))
    (fun error =>
       mret (RError
               (Error_toString error +:+ " Unsupported curve. Received "
                +:+ curve addressKey +:+ ". "
                +:+ Js.N_toString
                      (N.of_nat (length (compressedPublicKeyBytes addressKey)))
                +:+ " " +:+ key_publicKey addressKey +:+ " "
                +:+ slice2 (compressedPublicKey addressKey)
                +:+ " Only Secp256K1 && Ed25519 are supported."))).

(** The member [publicKey] of what [getCSPRAddress] returns. *)
Definition publicKey_of (r : Response) : option string :=
  match r with
  | RPublicKey hex => Some hex
  | _ => None
  end.

(** Whether a string or [undefined] is truthy. *)
Definition truthy (o : option string) : bool :=
  match o with
  | Some s => negb (String.eqb s "")
  | None => false
  end.

(** [promptUserDeployInfo(transaction, signingKey, origin)]. *)
Definition promptUserDeployInfo (transaction : Transaction)
    (signingKey origin : string) : M bool :=
  let* deployInfo := lift (transactionToObject transaction signingKey) in
  dialog (SignDeployDialog origin deployInfo transaction).

(** [addSignatureAndValidateTransaction] on the transaction object of the
    invocation. *)
Definition attach_and_validate (transaction : Transaction)
    (signature : list byte) (publicKeyHex : string) : M Response :=
  let '(r, transaction') :=
    addSignatureAndValidateTransaction transaction signature publicKeyHex in
  let* _ := store_transaction transaction' in
  lift r.

(** [sign(deployJson, origin, addressIndex)].  The body of the [try]
    yields [Some r] where the source returns [r] and [None] where it
    falls through to the statement after the [try]. *)
Definition sign (deployJson : Json) (origin : string) (addressIndex : Z)
  : M Response :=
  let* address := getCSPRAddress addressIndex in
  if negb (truthy (publicKey_of address)) then
    mret (RError ("Unable to get public key at index "
                  +:+ Js.Z_toString addressIndex +:+ "."))
  else
    let publicKeyHex := default "" (publicKey_of address) in
    let* returned :=
      mtry
        (let* transaction := lift (Transaction_fromJson deployJson) in
         let* _ := store_transaction transaction in
         let deployHash := Js.encodeBase16 (tx_hash transaction) in
         let* bip44Node := request_entropy 506 in
         let message := Js.Buffer_from_hex deployHash in
         let* addressKey := derive bip44Node addressIndex in
         let* response :=
           promptUserDeployInfo transaction publicKeyHex origin in
         if negb response then mret (Some RFalse)
         else
           match privateKeyBytes addressKey with
           | Some privateKey =>
               if String.eqb (curve addressKey) "ed25519" then
                 let* signature := nacl_sign_detached message privateKey in
                 let* r :=
                   attach_and_validate transaction signature publicKeyHex in
                 mret (Some r)
               else if String.eqb (curve addressKey) "secp256k1" then
                 let* digest := lift (sha256 message) in
                 let* signature := secp256k1_ecdsaSign digest privateKey in
                 let* r :=
                   attach_and_validate transaction signature publicKeyHex in
                 mret (Some r)
               else
                 mret (Some (RError
                               ("Unsupported curve : " +:+ curve addressKey
                                +:+ ". Only Secp256K1 && Ed25519 are supported.")))
           | None => mret None
           end)
        (fun error =>
           mret (Some (RError
                         (JSON_stringify_Error error +:+ " "
                          +:+ Error_toString error
                          +:+ " Unable to convert json into deploy object."))))
    in
    match returned with
    | Some r => mret r
    | None =>
        mret (RError ("No private key associated with the account "
                      +:+ Js.Z_toString addressIndex +:+ "."))
    end.

(** [signMessage(message, origin, addressIndex)]. *)
Definition signMessage (message : option string) (origin : string)
    (addressIndex : Z) : M Response :=
  let* bip44Node := request_entropy 506 in
  let* addressKey := derive bip44Node addressIndex in
  let messageBytes :=
    Buffer_from_string
      ("Casper Message:" +:+ LF +:+ to_string (of_option_string message)) in
  let* address := getCSPRAddress addressIndex in
  let* response :=
    dialog (SignMessageDialog origin (default "" (publicKey_of address))
              message) in
  if negb response then mret RFalse
  else
    match privateKeyBytes addressKey with
    | Some privateKey =>
        if String.eqb (curve addressKey) "ed25519" then
          let* signature := nacl_sign_detached messageBytes privateKey in
          mret (RSignature (Js.encodeBase16 signature))
        else if String.eqb (curve addressKey) "secp256k1" then
          let* digest := lift (sha256 messageBytes) in
          let* signature := secp256k1_ecdsaSign digest privateKey in
          mret (RSignature (Js.encodeBase16 signature))
        else
          mret (RError ("Unsupported curve : " +:+ curve addressKey
                        +:+ ". Only Secp256K1 && Ed25519 are supported."))
    | None => mret (RError "No private key associated with the account.")
    end.

(** The parameters of a request; each may be missing. *)
Record Params : Type := mkParams {
  param_addressIndex : option Z;
  param_deployJson : option Json;
  param_message : option string
}.

Record Request : Type := mkRequest {
  method : string;
  params : option Params
}.

(** [onRpcRequest({origin, request})]; a missing [addressIndex] takes the
    default value [0] of the handlers. *)
Definition onRpcRequest (origin : string) (request : Request) : M Response :=
  let addressIndex := default 0%Z (params request ≫= param_addressIndex) in
  if String.eqb (method request) "casper_getAccount" then
    getCSPRAddress addressIndex
  else if String.eqb (method request) "casper_sign" then
    sign (default JsonUndefined (params request ≫= param_deployJson))
      origin addressIndex
  else if String.eqb (method request) "casper_signMessage" then
    signMessage (params request ≫= param_message) origin addressIndex
  else mthrow (mkExn "Error" "Method not found.").

End snap.


(** ** The values the formatter returns on *)

(** A value that, behind the [Option] values around it, is not a list, a
    map, a tuple or a result. *)
Fixpoint formattable (v : CLValue) : bool :=
  match v with
  | CLOption (Some inner) _ => formattable inner
  | CLList _ | CLResult _ _ | CLMap _
  | CLTuple1 _ | CLTuple2 _ _ | CLTuple3 _ _ _ => false
  | _ => true
  end.

(** The first declared argument that is not formattable, with its name. *)
Fixpoint first_unformattable (args : Args) : option (string * CLValue) :=
  match args with
  | [] => None
  | (key, argument) :: rest =>
      if formattable argument then first_unformattable rest
      else Some (key, argument)
  end.

(** The arguments the decoder passes to the formatter: those of the
    session of a legacy deploy without a transfer, those of a version 1
    transaction, and none otherwise. *)
Definition formatted_args `{Sdk} (transaction : Transaction) : Args :=
  match originDeployV1 transaction with
  | Some deploy =>
      match transfer (session deploy) with
      | Some _ => []
      | None =>
      match moduleBytes (session deploy) with
      | Some code => moduleBytes_args code
      | None =>
      match select_storedContract (session deploy) with
      | Return storedContract => stored_args storedContract
      | Throw _ => []
      end end end
  | None =>
      if originTransactionV1 transaction then tx_args transaction else []
  end.

(** ** Fixed-response collaborators

    An SDK and a host with fixed answers, on which the handlers run to a
    value. *)

Module Fixture.

Definition invalid_index : Exn :=
  mkExn "Error" "Invalid BIP-32 index: Must be a non-negative integer.".

Definition recipientKey : PublicKey :=
  mkPublicKey
    "010068920746ecf5870e18911ee1fc5db975e0e97fffcbbf52f5045ad6c9838d2f".

Definition signerKey : PublicKey :=
  mkPublicKey
    "02025e3cc431e77e52e39e590af36a5dcb7e6ef1e22af86bfd8f022eeea8fccb6740".

(** A transfer of 10000000000000 motes with id 35. *)
Definition transferItem : TransferDeployItem :=
  mkTransfer [("amount", CLOther TU512 "10000000000000");
              ("target", CLPublicKey recipientKey);
              ("id", CLOther TU64 "35")].

(** A contract call that declares an argument named like the entry-point
    row. *)
Definition contract : StoredContract :=
  mkStored "counter" "increment"
    [("Entry Point", CLOther TString "shadowed"); ("step", CLOther TU64 "2")].

Definition emptySession : ExecutableDeployItem :=
  mkSession None None None None None None.

Definition transferSession : ExecutableDeployItem :=
  mkSession (Some transferItem) None None None None None.

(** A session with a transfer and a stored contract at once. *)
Definition mixedSession : ExecutableDeployItem :=
  mkSession (Some transferItem) None (Some contract) None None None.

Definition contractSession : ExecutableDeployItem :=
  mkSession None None None (Some contract) None None.

Definition legacy (s : ExecutableDeployItem) : Transaction :=
  {| tx_hash := [xde; xad; xbe; xef];
     initiatorAddr := mkInitiator (Some signerKey) None;
     chainName := "casper-test";
     timestamp := 0;
     tx_args := [];
     tx_entryPoint := mkEntryPoint None "Call" [];
     pricingMode := mkPricing None None None;
     originDeployV1 := Some (mkDeploy (mkHeader (Some [x01; x02]) 1) s);
     originTransactionV1 := false;
     approvals := [] |}.

(** Validation accepts the signatures of the fixture's ed25519 primitive
    (they start with the byte [ed]) and throws on any other. *)
Definition validate (t : Transaction) : completion bool :=
  if forallb (fun a => match signature a with
                       | xed :: _ => true
                       | _ => false
                       end) (approvals t)
  then Return true
  else Throw (mkExn "Error" "Invalid signature").

Definition validate_true (t : Transaction) : validate t <> Return false.
Proof. unfold validate. by destruct (forallb _ _). Qed.

#[export] Instance sdk : Sdk := {|
  CLValue_toString v :=
    match v with
    | CLKey raw | CLURef raw | CLOther _ raw => raw
    | CLByteArray raw => Js.encodeBase16 raw
    | CLPublicKey pk => pk_toHex pk
    | _ => ""
    end;
  ExecutableDeployItem_bytes _ := [x00; x2a; xff];
  Date_toLocaleString := Js.Z_toString;
  Transaction_fromJson j :=
    match j with
    | JsonText "transfer" => Return (legacy transferSession)
    | JsonText "contract" => Return (legacy contractSession)
    | JsonText "empty" => Return (legacy emptySession)
    | _ => Throw (mkExn "Error" "invalid json")
    end;
  Transaction_toJSON t :=
    JsonText (Js.encodeBase16 (tx_hash t) +:+ ":"
              +:+ Js.join ","
                    (map (fun a => Js.encodeBase16 (signature a))
                       (approvals t)));
  Transaction_validate := validate;
  PublicKey_fromHex hex := Return (mkPublicKey hex);
  PublicKey_fromBytes bs :=
    match bs with
    | _ :: _ :: _ => Return (mkPublicKey (Js.encodeBase16 bs))
    | _ => Throw (mkExn "Error" "invalid public key")
    end;
  Transaction_validate_true := validate_true
|}.

Definition keyOf (curve : string) : AddressKey :=
  mkAddressKey "0x02ab" [x02; xab] "0x04ab" (Some [x07]) curve.

(** Index 0 is a secp256k1 key, index 1 an ed25519 key, any other
    non-negative index a key on another curve; a negative index is
    refused. Only the origin ["dapp"] is approved. *)
#[export] Instance host : Host := {|
  snap_getBip44Entropy _ := Return [x2a];
  getBIP44AddressKeyDeriver _ addressIndex :=
    if (addressIndex <? 0)%Z then Throw invalid_index
    else if (addressIndex =? 0)%Z then Return (keyOf "secp256k1")
    else if (addressIndex =? 1)%Z then Return (keyOf "ed25519")
    else Return (keyOf "p256");
  snap_dialog content :=
    match content with
    | SignDeployDialog origin _ _ => Return (String.eqb origin "dapp")
    | SignMessageDialog origin _ _ => Return (String.eqb origin "dapp")
    end;
  sign_detached message secretKey :=
    Return (xed :: message ++ secretKey)%list;
  ecdsaSign digest privateKey := Return (xec :: digest ++ privateKey)%list;
  sha256 bytes := Return (rev bytes)
|}.

End Fixture.

(** ** The payment rows of the confirmation dialog *)

(** The child of a [Text]: a string, or [n.toFixed(0)] of a number. *)
Inductive TextChild : Type :=
| TextString (s : string)
| TextFixed0 (n : Z).

(** The elements [Payment] builds: a [Box] of rows, or a [Row] with a label
    and a [Text]. *)
#[local] Unset Elimination Schemes.
Inductive Element : Type :=
| Box (children : list Element)
| Row (label : string) (text : TextChild).
#[local] Set Elimination Schemes.

(** [Payment({ transaction })]. *)
Definition Payment (transaction : Transaction) : Element :=
  match paymentLimited (pricingMode transaction) with
  | Some limited =>
      Box [Row "Payment Type" (TextString "Limited");
           Row "Gas price tolerance"
             (TextFixed0 (limited_gasPriceTolerance limited));
           Row "Payment Amount" (TextFixed0 (paymentAmount limited))]
  | None =>
  match fixed (pricingMode transaction) with
  | Some mode =>
      Box [Row "Payment Type" (TextString "Fixed");
           Row "Gas price tolerance"
             (TextFixed0 (fixed_gasPriceTolerance mode));
           Row "Additional Computation Power"
             (TextFixed0 (additionalComputationFactor mode))]
  | None =>
  match prepaid (pricingMode transaction) with
  | Some mode =>
      Box [Row "Payment Type" (TextString "Prepaid");
           Row "Receipt" (TextString (Js.encodeBase16 (receipt mode)))]
  | None => Row "Payment Type" (TextString "Not supported")
  end end end.

(** The rows of an element, in order. *)
Fixpoint rows (e : Element) : list (string * TextChild) :=
  match e with
  | Row label text => [(label, text)]
  | Box children => flat_map rows children
  end.

(** ** Reading the trace of an invocation *)

(** The call of a signing primitive. *)
Definition is_signing (e : Event) : bool :=
  match e with
  | EvSignDetached _ _ | EvEcdsaSign _ _ => true
  | _ => false
  end.

(** A confirmation dialog the user accepted. *)
Definition approved `{Host} (e : Event) : bool :=
  match e with
  | EvDialog content =>
      match snap_dialog content with
      | Return answer => answer
      | Throw _ => false
      end
  | _ => false
  end.

(** A confirmation dialog, accepted or not. *)
Definition is_dialog (e : Event) : bool :=
  match e with
  | EvDialog _ => true
  | _ => false
  end.

(** What the [catch] of [sign] returns for a thrown value. *)
Definition caught (error : Exn) : Response :=
  RError (JSON_stringify_Error error +:+ " " +:+ Error_toString error
          +:+ " Unable to convert json into deploy object.").

(** The names under which arguments are declared. *)
Definition declared_names (args : Args) : list string := map fst args.

(** The names that get a row: every declared name but [__proto__]. *)
Definition shown_names (args : Args) : gset string :=
  list_to_set (filter (fun k => k <> "__proto__") (declared_names args)).

(** ** More fixed data *)

Module Samples.

(** A module-bytes session with an argument named [__proto__]. *)
Definition wasmSession : ExecutableDeployItem :=
  mkSession None
    (Some (mkModuleBytes [x00; x61]
             [("__proto__", CLOther TString "hidden");
              ("amount", CLOther TU512 "5");
              ("memo", CLOption None "(Option: String)")]))
    None None None None.

(** A contract call that declares a list of two numbers after a number. *)
Definition listContract : StoredContract :=
  mkStored "registry" "add_all"
    [("count", CLOther TU32 "2");
     ("ids", CLList [CLOther TU8 "1"; CLOther TU8 "2"]);
     ("owner", CLKey "account-hash-aa11")].

Definition listSession : ExecutableDeployItem :=
  mkSession None None (Some listContract) None None None.

(** A version 1 native transfer. *)
Definition versioned : Transaction :=
  {| tx_hash := [xca; xfe];
     initiatorAddr :=
       mkInitiator None (Some (mkAccountHash "aa11" "account-hash-aa11"));
     chainName := "casper-net-1";
     timestamp := 0;
     tx_args := [("target", CLPublicKey Fixture.recipientKey);
                 ("amount", CLOther TU512 "20000000000000");
                 ("id", CLOption (Some (CLOther TU64 "3")) "(Option: U64)")];
     tx_entryPoint := mkEntryPoint None "Transfer" [x02];
     pricingMode := mkPricing None (Some (mkFixedMode 1 0)) None;
     originDeployV1 := None;
     originTransactionV1 := true;
     approvals := [] |}.

(** A host whose derived key has no private bytes. *)
Definition watchOnlyHost : Host := {|
  snap_getBip44Entropy _ := Return [x2a];
  getBIP44AddressKeyDeriver _ addressIndex :=
    if (addressIndex <? 0)%Z then Throw Fixture.invalid_index
    else Return (mkAddressKey "0x02ab" [x02; xab] "0x04ab" None "ed25519");
  snap_dialog _ := Return true;
  sign_detached message secretKey :=
    Return (xed :: message ++ secretKey)%list;
  ecdsaSign digest privateKey := Return (xec :: digest ++ privateKey)%list;
  sha256 bytes := Return (rev bytes)
|}.

(** A host whose derived key has a public key too short to parse. *)
Definition shortKeyHost : Host := {|
  snap_getBip44Entropy _ := Return [x2a];
  getBIP44AddressKeyDeriver _ addressIndex :=
    Return (mkAddressKey "0x" [] "0x04ab" (Some [x07]) "bls12381");
  snap_dialog _ := Return true;
  sign_detached message secretKey :=
    Return (xed :: message ++ secretKey)%list;
  ecdsaSign digest privateKey := Return (xec :: digest ++ privateKey)%list;
  sha256 bytes := Return (rev bytes)
|}.

(** A host whose dialog fails and whose detached-signature primitive
    refuses the key. *)
Definition failingHost : Host := {|
  snap_getBip44Entropy _ := Return [x2a];
  getBIP44AddressKeyDeriver _ addressIndex :=
    Return (Fixture.keyOf "ed25519");
  snap_dialog content :=
    match content with
    | SignDeployDialog _ _ _ => Return true
    | SignMessageDialog _ _ _ => Throw (mkExn "Error" "dialog closed")
    end;
  sign_detached _ _ := Throw (mkExn "Error" "bad secret key size");
  ecdsaSign digest privateKey := Return (xec :: digest ++ privateKey)%list;
  sha256 bytes := Return (rev bytes)
|}.

(** One invocation of [sign] with the fixture's SDK, from the initial
    state. *)
Definition run (host : Host) (json origin : string) (index : Z)
  : completion Response * World :=
  sign (H := Fixture.sdk) (H0 := host) (JsonText json) origin index
    initial_world.

(** The result of [sign] for a key on a curve it does not support. *)
Definition unsupported (tag : string) : completion Response :=
  Return (RError ("Unsupported curve : " +:+ tag
                  +:+ ". Only Secp256K1 && Ed25519 are supported.")).

End Samples.

(** * Properties *)

(** ** Decimal digits *)

Module JsFacts.
Import Js.

Lemma chars_str (l : list ascii) : chars (str l) = l.
Proof. apply list_ascii_of_string_of_list_ascii. Qed.

Lemma str_chars (s : string) : str (chars s) = s.
Proof. apply string_of_list_ascii_of_string. Qed.

Lemma N_of_digit_char (n : N) :
  (n < 10)%N -> N_of_ascii (digit_char n) = (48 + n)%N.
Proof. intros Hn. unfold digit_char. apply N_ascii_embedding. lia. Qed.

Lemma is_digit_digit_char (n : N) :
  (n < 10)%N -> is_digit (digit_char n) = true.
Proof.
  intros Hn. unfold is_digit. rewrite N_of_digit_char by done.
  apply andb_true_intro. split; apply N.leb_le; lia.
Qed.

Lemma digit_value_digit_char (n : N) :
  (n < 10)%N -> digit_value (digit_char n) = Some n.
Proof.
  intros Hn. unfold digit_value.
  rewrite is_digit_digit_char, N_of_digit_char by done. f_equal. lia.
Qed.

Lemma is_digit_not_dot (c : ascii) : is_digit c = true -> is_dot c = false.
Proof.
  unfold is_digit, is_dot. intros Hd.
  destruct (Ascii.eqb_spec c "."%char) as [->|]; [discriminate Hd | done].
Qed.

Lemma is_digit_not_minus (c : ascii) :
  is_digit c = true -> Ascii.eqb c "-"%char = false.
Proof.
  unfold is_digit. intros Hd.
  destruct (Ascii.eqb_spec c "-"%char) as [->|]; [discriminate Hd | done].
Qed.

Lemma value_acc_app (l1 l2 : list ascii) (a : N) :
  value_acc (l1 ++ l2) a = value_acc l1 a ≫= value_acc l2.
Proof.
  revert a. induction l1 as [|c l1 IH]; intros a; simpl; [done|].
  destruct (digit_value c); [apply IH | done].
Qed.

Lemma value_acc_zeros (k : nat) (l : list ascii) :
  value_acc (repeat "0"%char k ++ l) 0 = value_acc l 0.
Proof. induction k as [|k IH]; [done|]. simpl. exact IH. Qed.

Lemma digits_of_nonempty (fuel : nat) (n : N) : digits_of fuel n <> [].
Proof.
  destruct fuel; simpl; [done|].
  destruct (n <? 10)%N; [done|]. by destruct (digits_of fuel (n / 10)).
Qed.

Lemma digits_of_all_digits (fuel : nat) (n : N) :
  forallb is_digit (digits_of fuel n) = true.
Proof.
  revert n. induction fuel as [|fuel IH]; intros n; simpl.
  - rewrite is_digit_digit_char; [done|]. apply N.mod_lt. lia.
  - destruct (N.ltb_spec n 10).
    + simpl. by rewrite is_digit_digit_char.
    + rewrite forallb_app, IH. simpl.
      rewrite is_digit_digit_char; [done|]. apply N.mod_lt. lia.
Qed.

Lemma value_acc_digits_of (fuel : nat) (n : N) :
  (n < 2 ^ N.of_nat fuel)%N -> value_acc (digits_of fuel n) 0 = Some n.
Proof.
  revert n. induction fuel as [|fuel IH]; intros n Hn.
  - assert (n = 0%N) as -> by (simpl in Hn; lia). reflexivity.
  - simpl digits_of. destruct (N.ltb_spec n 10) as [Hlt|Hge].
    + simpl. rewrite digit_value_digit_char by done. f_equal; lia.
    + rewrite value_acc_app, IH.
      * simpl. rewrite digit_value_digit_char by (apply N.mod_lt; lia).
        pose proof (N.div_mod n 10). f_equal; lia.
      * rewrite Nat2N.inj_succ, N.pow_succ_r' in Hn.
        apply N.Div0.div_lt_upper_bound. lia.
Qed.

Lemma digits_value_digits (n : N) : digits_value (digits n) = Some n.
Proof.
  unfold digits_value, digits.
  pose proof (digits_of_nonempty (N.to_nat (N.size n)) n) as Hne.
  destruct (digits_of _ n) eqn:E; [done|]. rewrite <- E.
  apply value_acc_digits_of. rewrite N2Nat.id. apply N.size_gt.
Qed.

Lemma digits_of_length (fuel : nat) (n : N) (k : nat) :
  (1 <= k)%nat -> (n < 10 ^ N.of_nat k)%N ->
  (length (digits_of fuel n) <= k)%nat.
Proof.
  revert n k. induction fuel as [|fuel IH]; intros n k Hk Hn; simpl.
  - done.
  - destruct (N.ltb_spec n 10) as [Hlt|Hge]; simpl; [done|].
    rewrite length_app. simpl.
    destruct k as [|[|k]]; [lia| simpl in Hn; lia |].
    specialize (IH (n / 10)%N (S k)).
    rewrite (Nat2N.inj_succ (S k)), N.pow_succ_r' in Hn.
    assert (length (digits_of fuel (n / 10)) <= S k)%nat; [|lia].
    apply IH; [lia|]. apply N.Div0.div_lt_upper_bound. lia.
Qed.

End JsFacts.

(** ** [parseFixed] and [formatFixed] *)

Module EthersFacts.
Import Js JsFacts Ethers.
#[local] Open Scope list_scope.

Lemma drop_zeros_decompose (l : list ascii) :
  l = repeat "0"%char (length l - length (drop_zeros l)) ++ drop_zeros l.
Proof.
  induction l as [|c l IH]; [done|]. simpl drop_zeros.
  unfold is_zero_char. destruct (Ascii.eqb_spec c "0"%char) as [->|Hc].
  - assert (length (drop_zeros l) <= length l)%nat as Hle.
    { rewrite IH at 2. rewrite length_app. lia. }
    replace (length ("0"%char :: l) - length (drop_zeros l))%nat
      with (S (length l - length (drop_zeros l))) by (simpl; lia).
    simpl. by rewrite <- IH.
  - by rewrite Nat.sub_diag.
Qed.

Lemma drop_zeros_idem (l : list ascii) :
  drop_zeros (drop_zeros l) = drop_zeros l.
Proof.
  induction l as [|c l IH]; [done|]. simpl.
  destruct (is_zero_char c) eqn:E; [done|]. simpl. by rewrite E.
Qed.

Lemma rev_repeat_zero (k : nat) :
  rev (repeat "0"%char k) = repeat "0"%char k.
Proof.
  induction k as [|k IH]; [done|]. simpl. rewrite IH.
  by rewrite <- repeat_cons.
Qed.

Lemma trim_decompose (l : list ascii) :
  l = trim_trailing_zeros l
      ++ repeat "0"%char (length l - length (trim_trailing_zeros l)).
Proof.
  unfold trim_trailing_zeros. rewrite length_rev.
  rewrite <- (length_rev l).
  rewrite <- rev_repeat_zero, <- rev_app_distr, <- drop_zeros_decompose.
  by rewrite rev_involutive.
Qed.

Lemma trim_length (l : list ascii) :
  (length (trim_trailing_zeros l) <= length l)%nat.
Proof. rewrite (trim_decompose l) at 2. rewrite length_app. lia. Qed.

Lemma trim_idem (l : list ascii) :
  trim_trailing_zeros (trim_trailing_zeros l) = trim_trailing_zeros l.
Proof.
  unfold trim_trailing_zeros. by rewrite rev_involutive, drop_zeros_idem.
Qed.

Lemma trim_pad (l : list ascii) :
  pad_right (length l) (trim_trailing_zeros l) = l.
Proof. unfold pad_right. symmetry. apply trim_decompose. Qed.

Lemma trim_forallb (p : ascii -> bool) (l : list ascii) :
  forallb p l = true -> forallb p (trim_trailing_zeros l) = true.
Proof.
  intros Hl. rewrite (trim_decompose l), forallb_app in Hl.
  by apply andb_prop in Hl as [? _].
Qed.

(** Reading back a fraction of full length that [formatFixed] stripped. *)
Lemma reparse_fraction (P : list ascii) (d : nat) :
  length P = d -> (1 <= d)%nat ->
  let f := trim_trailing_zeros (strip_fraction P) in
  (d <? length f)%nat = false
  /\ pad_right d (or_zero f) = P.
Proof.
  intros HP Hd. unfold strip_fraction, or_zero.
  destruct (trim_trailing_zeros P) as [|c t] eqn:E.
  - cbn. split; [done|].
    pose proof (trim_decompose P) as HPz. rewrite E, HP in HPz.
    simpl in HPz. rewrite Nat.sub_0_r in HPz. rewrite HPz.
    destruct d; [lia|]. simpl. by rewrite Nat.sub_0_r.
  - rewrite <- E, trim_idem. cbv zeta. split.
    + apply Nat.ltb_ge. rewrite <- HP. apply trim_length.
    + rewrite E, <- E, <- HP. apply trim_pad.
Qed.

Lemma strip_fraction_nonempty (P : list ascii) : strip_fraction P <> [].
Proof.
  unfold strip_fraction, or_zero. by destruct (trim_trailing_zeros P).
Qed.

Lemma strip_fraction_digits (P : list ascii) :
  forallb is_digit P = true -> forallb is_digit (strip_fraction P) = true.
Proof.
  intros HP. unfold strip_fraction, or_zero.
  pose proof (trim_forallb is_digit P HP) as Ht.
  by destruct (trim_trailing_zeros P).
Qed.

Lemma pad_left_length (d : nat) (l : list ascii) :
  (length l <= d)%nat -> length (pad_left d l) = d.
Proof.
  intros Hl. unfold pad_left. rewrite length_app, repeat_length. lia.
Qed.

Lemma pad_left_digits (d : nat) (l : list ascii) :
  forallb is_digit l = true -> forallb is_digit (pad_left d l) = true.
Proof.
  intros Hl. unfold pad_left. rewrite forallb_app, Hl, andb_true_r.
  induction (d - length l)%nat; [done|]. simpl. done.
Qed.

Lemma pad_left_value (d : nat) (l : list ascii) :
  l <> [] -> digits_value (pad_left d l) = digits_value l.
Proof.
  intros Hl. unfold digits_value, pad_left.
  destruct l as [|c l]; [done|].
  destruct (repeat "0"%char (d - length (c :: l)) ++ c :: l) eqn:E.
  - by destruct (repeat _ _).
  - rewrite <- E. apply value_acc_zeros.
Qed.

Lemma split_on_no_dot (l : list ascii) :
  forallb is_digit l = true -> split_on "."%char l = [l].
Proof.
  induction l as [|c l IH]; [done|]. simpl. intros Hl.
  apply andb_prop in Hl as [Hc Hl].
  apply is_digit_not_dot in Hc. unfold is_dot in Hc. rewrite Hc.
  by rewrite (IH Hl).
Qed.

Lemma split_on_dot (W F : list ascii) :
  forallb is_digit W = true -> forallb is_digit F = true ->
  split_on "."%char (W ++ "."%char :: F) = [W; F].
Proof.
  intros HW HF. induction W as [|c W IH]; simpl.
  - by rewrite split_on_no_dot.
  - simpl in HW. apply andb_prop in HW as [Hc HW].
    apply is_digit_not_dot in Hc. unfold is_dot in Hc. rewrite Hc.
    by rewrite (IH HW).
Qed.

Lemma forallb_digit_or_dot (l : list ascii) :
  forallb is_digit l = true ->
  forallb (fun c => is_digit c || is_dot c) l = true.
Proof.
  induction l as [|c l IH]; [done|]. simpl. intros Hl.
  apply andb_prop in Hl as [-> Hl]. by rewrite (IH Hl).
Qed.

(** [parseFixed] on an optional sign, digits, a dot and digits. *)
Lemma parseFixed_chars_dotted (neg : bool) (W F : list ascii) (d : nat)
    (w f : N) :
  forallb is_digit W = true -> forallb is_digit F = true ->
  F <> [] ->
  digits_value W = Some w ->
  (d <? length (trim_trailing_zeros F))%nat = false ->
  digits_value (pad_right d (or_zero (trim_trailing_zeros F))) = Some f ->
  parseFixed_chars ((if neg then ["-"%char] else []) ++ W ++ "."%char :: F) d
  = Return (let wei := (Z.of_N w * Z.of_N (multiplier d) + Z.of_N f)%Z in
            if neg then (wei * -1)%Z else wei).
Proof.
  intros HW HF HFne Hw Hlen Hf.
  destruct W as [|c W]; [done|].
  assert (Hc : Ascii.eqb c "-"%char = false).
  { simpl in HW. apply andb_prop in HW as [Hc _].
    by apply is_digit_not_minus. }
  assert (Hall : forallb (fun c => is_digit c || is_dot c)
                   ((c :: W) ++ "."%char :: F) = true).
  { rewrite forallb_app. simpl forallb at 2.
    rewrite !forallb_digit_or_dot by done. done. }
  assert (Hm : matches_decimal
                 ((if neg then ["-"%char] else []) ++ (c :: W) ++ "."%char :: F)
               = true).
  { unfold matches_decimal. destruct neg; cbn [app].
    - exact Hall.
    - rewrite Hc. exact Hall. }
  unfold parseFixed_chars. rewrite Hm. simpl negb. cbv iota.
  assert (Hneg : match (if neg then ["-"%char] else []) ++ (c :: W) ++ "."%char :: F with
                 | [] => false
                 | c0 :: _ => Ascii.eqb c0 "-"%char
                 end = neg).
  { destruct neg; simpl; [done | exact Hc]. }
  cbv zeta. rewrite Hneg.
  assert (Hv : (if neg
                then tl ((if neg then ["-"%char] else []) ++ (c :: W) ++ "."%char :: F)
                else (if neg then ["-"%char] else []) ++ (c :: W) ++ "."%char :: F)
               = (c :: W) ++ "."%char :: F).
  { by destruct neg. }
  rewrite Hv.
  rewrite bool_decide_false.
  2:{ simpl. intros [= -> HWF]. by destruct W. }
  rewrite split_on_dot by done.
  simpl length. simpl Nat.ltb. cbv iota.
  simpl nth.
  destruct F as [|cf F]; [done|].
  change (or_zero (c :: W)) with (c :: W).
  change (or_zero (cf :: F)) with (cf :: F).
  rewrite Hlen, Hw, Hf. done.
Qed.

(** [parseFixed] on digits alone. *)
Lemma parseFixed_chars_digits (n : N) (d : nat) :
  parseFixed_chars (digits n) d
  = Return (Z.of_N n * Z.of_N (multiplier d))%Z.
Proof.
  pose proof (digits_of_all_digits (N.to_nat (N.size n)) n) as HW.
  pose proof (digits_value_digits n) as Hw.
  fold (digits n) in HW.
  destruct (digits n) as [|c W] eqn:E; [done|].
  assert (Hc : Ascii.eqb c "-"%char = false).
  { simpl in HW. apply andb_prop in HW as [Hc _].
    by apply is_digit_not_minus. }
  assert (Hm : matches_decimal (c :: W) = true).
  { unfold matches_decimal. rewrite Hc. by apply forallb_digit_or_dot. }
  unfold parseFixed_chars. rewrite Hm. simpl negb. cbv iota zeta.
  rewrite Hc.
  rewrite bool_decide_false.
  2:{ intros [= -> _]. discriminate HW. }
  rewrite split_on_no_dot by done.
  simpl length. simpl Nat.ltb. cbv iota. simpl nth.
  change (or_zero (c :: W)) with (c :: W).
  change (trim_trailing_zeros (or_zero [])) with (@nil ascii).
  change (or_zero []) with ["0"%char].
  simpl length. replace (d <? 0)%nat with false by (by destruct d).
  rewrite Hw.
  assert (Hz : digits_value (pad_right d ["0"%char]) = Some 0%N).
  { unfold pad_right. simpl. clear.
    induction (d - 1)%nat as [|k IH]; [done|]. exact IH. }
  rewrite Hz. f_equal. lia.
Qed.

Lemma multiplier_pos (d : nat) : (0 < multiplier d)%N.
Proof. unfold multiplier. apply N.neq_0_lt_0, N.pow_nonzero. lia. Qed.

(** Reading back what [formatFixed] wrote gives the value back: the
    string denotes the value exactly. *)
Lemma parseFixed_formatFixed (z : Z) (d : nat) :
  (1 <= d)%nat ->
  parseFixed_chars (formatFixed_chars z d) d = Return z.
Proof.
  intros Hd. unfold formatFixed_chars.
  set (v := Z.abs_N z). set (M := multiplier d).
  pose proof (multiplier_pos d) as HM. fold M in HM.
  set (P := pad_left d (digits (v mod M))).
  assert (HPlen : length P = d).
  { apply pad_left_length. unfold digits. apply digits_of_length; [done|].
    fold (multiplier d). fold M. apply N.mod_lt. lia. }
  assert (HPdig : forallb is_digit P = true).
  { apply pad_left_digits, digits_of_all_digits. }
  assert (HPval : digits_value P = Some (v mod M)%N).
  { unfold P. rewrite pad_left_value by apply digits_of_nonempty.
    apply digits_value_digits. }
  destruct (reparse_fraction P d HPlen Hd) as [Hlen Hpad].
  destruct d as [|d']; [lia|].
  pose proof (parseFixed_chars_dotted (z <? 0)%Z (digits (v / M))
                (strip_fraction P) (S d') (v / M) (v mod M)) as Hparse.
  replace (if (z <? 0)%Z
           then "-"%char :: digits (v / M) ++ "."%char :: strip_fraction P
           else digits (v / M) ++ "."%char :: strip_fraction P)
    with ((if (z <? 0)%Z then ["-"%char] else [])
          ++ digits (v / M) ++ "."%char :: strip_fraction P)
    by (by destruct (z <? 0)%Z).
  rewrite Hparse.
  - f_equal. fold M. cbv zeta.
    pose proof (N.div_mod v M) as Hdm.
    assert (Z.of_N v = Z.of_N (v / M) * Z.of_N M + Z.of_N (v mod M))%Z as Hv
      by lia.
    rewrite <- Hv. unfold v. rewrite N2Z.inj_abs_N.
    destruct (Z.ltb_spec z 0); lia.
  - apply digits_of_all_digits.
  - by apply strip_fraction_digits.
  - apply strip_fraction_nonempty.
  - apply digits_value_digits.
  - exact Hlen.
  - cbv zeta in Hpad. rewrite Hpad. exact HPval.
Qed.

End EthersFacts.
(** ** The formatter *)

Section formatter.
Context `{Sdk}.

(** The formatter returns a string on every formattable value. *)
Lemma parseDeployArg_formattable (arg : CLValue) :
  formattable arg = true ->
  exists s, parseDeployArg arg = Return (VString s).
Proof.
  revert arg. fix IH 1.
  intros [ | raw | raw | [inner|] typeName | elements | raw | ok inner
         | entries | inner | a b | a b c | pk | tag raw ] Hf;
    try discriminate Hf; try (eexists; reflexivity).
  exact (IH inner Hf).
Qed.

(** On every other value it throws a [TypeError]. *)
Lemma parseDeployArg_unformattable (arg : CLValue) :
  formattable arg = false ->
  exists e, parseDeployArg arg = Throw e /\ exn_name e = "TypeError".
Proof.
  revert arg. fix IH 1.
  intros [ | raw | raw | [inner|] typeName | elements | raw | ok inner
         | entries | inner | a b | a b c | pk | tag raw ] Hf;
    try discriminate Hf; try (eexists; split; reflexivity).
  exact (IH inner Hf).
Qed.

(** What the formatter returns is never an array and never [undefined]. *)
Lemma parseDeployArg_string (arg : CLValue) (d : JsValue) :
  parseDeployArg arg = Return d -> exists s, d = VString s.
Proof.
  intros Hd. destruct (formattable arg) eqn:Hf.
  - destruct (parseDeployArg_formattable arg Hf) as [s Hs].
    rewrite Hs in Hd. injection Hd as <-. by exists s.
  - destruct (parseDeployArg_unformattable arg Hf) as (e & He & _).
    rewrite He in Hd. discriminate Hd.
Qed.

Lemma first_unformattable_None (args : Args) :
  first_unformattable args = None
  <-> forallb (fun kv => formattable (snd kv)) args = true.
Proof.
  induction args as [|[k v] args IH]; [done|].
  cbn [first_unformattable forallb snd].
  destruct (formattable v); [exact IH|]. by split.
Qed.

(** Formatting every declared argument returns when each is
    formattable. *)
Lemma forEach_parse_total (args : Args) (deployArgs : gmap string JsValue) :
  first_unformattable args = None ->
  exists m, forEach_parse args deployArgs = Return m.
Proof.
  revert deployArgs. induction args as [|[k v] args IH];
    intros deployArgs Hf; cbn [forEach_parse].
  - by eexists.
  - cbn [first_unformattable] in Hf.
    destruct (formattable v) eqn:Hv; [|discriminate Hf].
    destruct (parseDeployArg_formattable v Hv) as [s Hs].
    rewrite Hs. cbn [cbind]. by apply IH.
Qed.

(** It fails as the first argument that is not formattable does. *)
Lemma forEach_parse_first_unformattable (args : Args) (key : string)
    (argument : CLValue) (deployArgs : gmap string JsValue) :
  first_unformattable args = Some (key, argument) ->
  exists e,
    parseDeployArg argument = Throw e
    /\ exn_name e = "TypeError"
    /\ forEach_parse args deployArgs = Throw e.
Proof.
  revert deployArgs. induction args as [|[k v] args IH];
    intros deployArgs Hf; [discriminate Hf|].
  cbn [first_unformattable] in Hf. cbn [forEach_parse].
  destruct (formattable v) eqn:Hv.
  - destruct (parseDeployArg_formattable v Hv) as [s Hs].
    rewrite Hs. cbn [cbind]. by apply IH.
  - injection Hf as -> ->.
    destruct (parseDeployArg_unformattable argument Hv) as (e & He & Hname).
    exists e. by rewrite He.
Qed.

End formatter.

(** ** Motes to CSPR *)

Section motes.
Import Js JsFacts Ethers EthersFacts.

Lemma from_number_1e9 :
  from_number 1000000000 = Return (mkFixed "1000000000.0").
Proof. vm_compute. reflexivity. Qed.

Lemma parseFixed_1e9 :
  parseFixed "1000000000.0" decimals
  = Return 1000000000000000000000000000%Z.
Proof. vm_compute. reflexivity. Qed.

Lemma parseFixed_formatFixed_string (z : Z) :
  parseFixed (formatFixed z decimals) decimals = Return z.
Proof.
  unfold parseFixed, formatFixed. rewrite chars_str.
  apply parseFixed_formatFixed. unfold decimals. lia.
Qed.

Lemma fromValue_18 (z : Z) :
  fromValue z decimals = Return (mkFixed (formatFixed z decimals)).
Proof.
  unfold fromValue, fromString. by rewrite parseFixed_formatFixed_string.
Qed.

(** The conversion of a string that [parseFixed] reads as [z]. *)
Lemma convertMotesToCasper_parsed (s : string) (z : Z) :
  parseFixed s decimals = Return z ->
  convertMotesToCasper s
  = formatFixed (Z.quot (z * 1000000000000000000) 1000000000000000000000000000)
      decimals.
Proof.
  intros Hs. unfold convertMotesToCasper, from_string, fromString.
  rewrite Hs, from_number_1e9. cbn [cbind].
  unfold divUnsafe. cbn [_value].
  rewrite parseFixed_formatFixed_string, parseFixed_1e9. cbn [cbind].
  change (1000000000000000000000000000 =? 0)%Z with false. cbv iota.
  rewrite fromValue_18. reflexivity.
Qed.

(** The conversion of a string that [FixedNumber.from] refuses. *)
Lemma convertMotesToCasper_refused (s : string) (e : Exn) :
  from_string s = Throw e -> convertMotesToCasper s = "0".
Proof. intros Hs. unfold convertMotesToCasper. by rewrite Hs. Qed.

(** The conversion of the decimal string of [n] motes writes [n * 10^9]
    with eighteen decimals. *)
Lemma convertMotesToCasper_digits (n : N) :
  convertMotesToCasper (N_toString n)
  = formatFixed (Z.of_N n * 1000000000) decimals.
Proof.
  rewrite (convertMotesToCasper_parsed _ (Z.of_N n * 1000000000000000000)).
  - f_equal.
    replace (Z.of_N n * 1000000000000000000 * 1000000000000000000)%Z
      with (Z.of_N n * 1000000000 * 1000000000000000000000000000)%Z by lia.
    apply Z.quot_mul. lia.
  - unfold parseFixed, N_toString. rewrite chars_str.
    rewrite parseFixed_chars_digits. reflexivity.
Qed.

End motes.

(** ** The decoder *)

Section decoder.
Context `{Sdk}.

Lemma isTransfer_Some (s : ExecutableDeployItem) (t : TransferDeployItem) :
  transfer s = Some t -> isTransfer s = true.
Proof. intros Ht. unfold isTransfer. by rewrite Ht. Qed.

Lemma deploy_type_labels (deploy : Deploy) :
  deploy_type deploy = "Transfer"
  \/ deploy_type deploy = "WASM-Based Deploy"
  \/ deploy_type deploy = "Contract Call"
  \/ deploy_type deploy = "Contract Package Call".
Proof.
  unfold deploy_type.
  destruct (isTransfer _); [by left|].
  destruct (isModuleBytes _); [by right; left|].
  destruct (_ || _); [by right; right; left | by right; right; right].
Qed.

(** A legacy deploy decodes to a view whenever its arguments do. *)
Lemma transactionToObject_legacy (transaction : Transaction) (deploy : Deploy)
    (signingKey : string) (m : gmap string JsValue) :
  originDeployV1 transaction = Some deploy ->
  deploy_args deploy = Return m ->
  exists info,
    transactionToObject transaction signingKey = Return info
    /\ deployType info = deploy_type deploy
    /\ deployArgs info = m.
Proof.
  intros Hd Hm. unfold transactionToObject. rewrite Hd, Hm.
  eexists. split; [reflexivity|]. by split.
Qed.

Lemma transactionToObject_legacy_inv (transaction : Transaction)
    (deploy : Deploy) (signingKey : string) (info : DeployInfo) :
  originDeployV1 transaction = Some deploy ->
  transactionToObject transaction signingKey = Return info ->
  deployType info = deploy_type deploy
  /\ deploy_args deploy = Return (deployArgs info).
Proof.
  intros Hd. unfold transactionToObject. rewrite Hd.
  destruct (deploy_args deploy) as [m|e]; [|discriminate].
  simpl. intros [= <-]. by split.
Qed.

Lemma set_property_other (key : string) (v : JsValue)
    (obj : gmap string JsValue) :
  key <> "__proto__" -> set_property key v obj = <[key := v]> obj.
Proof.
  intros Hk. unfold set_property.
  by destruct (String.eqb_spec key "__proto__").
Qed.

Lemma parseTransferData_entries (t : TransferDeployItem) :
  parseTransferData t
  = <["Transfer ID" :=
        of_option_string (CLValue_toString <$> Map_get "id" (transfer_args t))]>
      (<["Motes" :=
           VString (default ""
                      (CLValue_toString <$> Map_get "amount" (transfer_args t)))]>
         (<["Amount" :=
              VString
                (convertMotesToCasper
                   (default ""
                      (CLValue_toString
                         <$> Map_get "amount" (transfer_args t)))
                 +:+ " CSPR")]>
            (<["Recipient" :=
                 of_option_string
                   (CLValue_toString <$> Map_get "target" (transfer_args t))]>
               ∅))).
Proof.
  unfold parseTransferData. by rewrite !set_property_other by discriminate.
Qed.

Lemma set_property_lookup_ne (k key : string) (v : JsValue)
    (obj : gmap string JsValue) :
  k <> key -> set_property key v obj !! k = obj !! k.
Proof.
  intros Hk. unfold set_property.
  destruct (String.eqb key "__proto__"); [done|].
  by rewrite lookup_insert_ne.
Qed.

Lemma set_property_lookup_proto (key : string) (v : JsValue)
    (obj : gmap string JsValue) :
  set_property key v obj !! "__proto__" = obj !! "__proto__".
Proof.
  unfold set_property.
  destruct (String.eqb_spec key "__proto__") as [->|Hk]; [done|].
  by rewrite lookup_insert_ne.
Qed.

Lemma set_property_dom (key : string) (v : JsValue)
    (obj : gmap string JsValue) :
  dom (set_property key v obj)
  = dom obj ∪ (if decide (key <> "__proto__") then {[key]} else ∅).
Proof.
  unfold set_property.
  destruct (String.eqb_spec key "__proto__") as [->|Hk].
  - rewrite decide_False by (by intros []). set_solver.
  - rewrite decide_True by done. rewrite dom_insert_L. set_solver.
Qed.

Lemma forEach_parse_lookup_absent (k : string) (args : Args)
    (acc m : gmap string JsValue) :
  k ∉ declared_names args ->
  forEach_parse args acc = Return m -> m !! k = acc !! k.
Proof.
  revert acc. induction args as [|[k' v] args IH]; intros acc Hk;
    cbn [forEach_parse].
  - by intros [= ->].
  - destruct (parseDeployArg v) as [d|e]; [|discriminate]. cbn [cbind].
    intros Hm. cbn [declared_names map fst] in Hk.
    apply not_elem_of_cons in Hk as [Hne Hk].
    rewrite (IH _ Hk Hm). by apply set_property_lookup_ne.
Qed.

Lemma forEach_parse_lookup_proto (args : Args) (acc m : gmap string JsValue) :
  forEach_parse args acc = Return m -> m !! "__proto__" = acc !! "__proto__".
Proof.
  revert acc. induction args as [|[k' v] args IH]; intros acc;
    cbn [forEach_parse].
  - by intros [= ->].
  - destruct (parseDeployArg v) as [d|e]; [|discriminate]. cbn [cbind].
    intros Hm. rewrite (IH _ Hm). apply set_property_lookup_proto.
Qed.

Lemma forEach_parse_dom (args : Args) (acc m : gmap string JsValue) :
  forEach_parse args acc = Return m -> dom m = dom acc ∪ shown_names args.
Proof.
  revert acc. induction args as [|[k' v] args IH]; intros acc;
    cbn [forEach_parse].
  - intros [= ->]. unfold shown_names. cbn. set_solver.
  - destruct (parseDeployArg v) as [d|e]; [|discriminate]. cbn [cbind].
    intros Hm. rewrite (IH _ Hm), set_property_dom.
    unfold shown_names. cbn [declared_names map fst].
    rewrite filter_cons. fold (declared_names args).
    destruct (decide (k' <> "__proto__")); [|set_solver].
    rewrite list_to_set_cons. set_solver.
Qed.

Lemma transactionToObject_versioned_inv (transaction : Transaction)
    (signingKey : string) (info : DeployInfo) :
  originDeployV1 transaction = None ->
  transactionToObject transaction signingKey = Return info ->
  originTransactionV1 transaction = true
  /\ forEach_parse (tx_args transaction) ∅ = Return (deployArgs info).
Proof.
  intros Hd. unfold transactionToObject. rewrite Hd.
  destruct (originTransactionV1 transaction); [|discriminate].
  destruct (forEach_parse (tx_args transaction) ∅) as [m|e]; [|discriminate].
  cbn [cbind]. intros [= <-]. by split.
Qed.

Lemma deploy_args_lookup_proto (deploy : Deploy) (m : gmap string JsValue) :
  deploy_args deploy = Return m -> m !! "__proto__" = None.
Proof.
  unfold deploy_args.
  destruct (transfer (session deploy)) as [t|].
  { intros [= <-]. rewrite parseTransferData_entries.
    by rewrite !lookup_insert_ne by discriminate. }
  destruct (moduleBytes (session deploy)) as [mb|].
  { intros Hm. by rewrite (forEach_parse_lookup_proto _ _ _ Hm). }
  destruct (select_storedContract (session deploy)) as [sc|e]; [|discriminate].
  cbn [cbind].
  destruct (forEach_parse (stored_args sc) ∅) as [declared|e] eqn:Hdecl;
    [|discriminate].
  cbn [cbind]. intros [= <-]. rewrite set_property_lookup_proto.
  by rewrite (forEach_parse_lookup_proto _ _ _ Hdecl).
Qed.

(** With distinct names, a declared argument is found under its name with
    its own format. *)
Lemma forEach_parse_lookup (args : Args) (acc m : gmap string JsValue)
    (key : string) (argument : CLValue) :
  NoDup (declared_names args) ->
  (key, argument) ∈ args ->
  key <> "__proto__" ->
  forEach_parse args acc = Return m ->
  exists parsed,
    parseDeployArg argument = Return parsed /\ m !! key = Some parsed.
Proof.
  revert acc. induction args as [|[k v] args IH]; intros acc Hnd Hin Hkey;
    [by apply elem_of_nil in Hin|].
  cbn [declared_names map fst] in Hnd. apply NoDup_cons in Hnd as [Hk Hnd].
  cbn [forEach_parse].
  destruct (parseDeployArg v) as [d|e] eqn:Hd; [|discriminate].
  cbn [cbind]. intros Hm.
  apply elem_of_cons in Hin as [[= -> ->]|Hin].
  - exists d. split; [exact Hd|].
    rewrite (forEach_parse_lookup_absent _ _ _ _ Hk Hm).
    rewrite set_property_other by done. apply lookup_insert_eq.
  - by apply (IH (set_property k d acc)).
Qed.

(** Every entry the loop adds is a string. *)
Lemma forEach_parse_strings (args : Args) (acc m : gmap string JsValue) :
  forEach_parse args acc = Return m ->
  (forall k v, acc !! k = Some v -> exists s, v = VString s) ->
  forall k v, m !! k = Some v -> exists s, v = VString s.
Proof.
  revert acc. induction args as [|[k' v'] args IH]; intros acc;
    cbn [forEach_parse].
  - by intros [= ->].
  - destruct (parseDeployArg v') as [d|e] eqn:Hd; [|discriminate].
    cbn [cbind]. intros Hm Hacc. apply (IH _ Hm).
    intros k v. unfold set_property.
    destruct (String.eqb k' "__proto__"); [apply Hacc|].
    destruct (decide (k = k')) as [->|Hne].
    + rewrite lookup_insert_eq. intros [= <-].
      by apply (parseDeployArg_string v').
    + rewrite lookup_insert_ne by done. apply Hacc.
Qed.

(** How the decoder completes on a transaction that is not a transfer and
    whose session, if any, can be selected: as the loop over the arguments
    it formats. *)
Lemma transactionToObject_throws (transaction : Transaction)
    (signingKey : string) (e : Exn) :
  transactionToObject transaction signingKey = Throw e ->
  (originDeployV1 transaction = None
   /\ originTransactionV1 transaction = false
   /\ e = mkExn "Error" "Unsupported transaction type")
  \/ (exists deploy,
        originDeployV1 transaction = Some deploy
        /\ transfer (session deploy) = None
        /\ moduleBytes (session deploy) = None
        /\ select_storedContract (session deploy) = Throw e)
  \/ forEach_parse (formatted_args transaction) ∅ = Throw e.
Proof.
  unfold transactionToObject, formatted_args.
  destruct (originDeployV1 transaction) as [deploy|] eqn:Hd.
  - unfold deploy_args.
    destruct (transfer (session deploy)) as [t|] eqn:Ht; [discriminate|].
    destruct (moduleBytes (session deploy)) as [code|] eqn:Hm.
    { destruct (forEach_parse (moduleBytes_args code) ∅) as [m|e'];
        [discriminate|].
      cbn [cbind]. intros [= <-]. by right; right. }
    destruct (select_storedContract (session deploy)) as [sc|e'] eqn:Hsel.
    { cbn [cbind].
      destruct (forEach_parse (stored_args sc) ∅) as [m|e''];
        [discriminate|].
      cbn [cbind]. intros [= <-]. by right; right. }
    cbn [cbind]. intros [= ->]. right; left. by exists deploy.
  - destruct (originTransactionV1 transaction); [|by intros [= <-]; left].
    destruct (forEach_parse (tx_args transaction) ∅) as [m|e'];
      [discriminate|].
    cbn [cbind]. intros [= <-]. by right; right.
Qed.

Lemma of_option_string_cases (o : option string) :
  of_option_string o = VUndefined \/ exists s, of_option_string o = VString s.
Proof. destruct o as [s|]; [right; by exists s | by left]. Qed.

Lemma select_storedContract_throws (s : ExecutableDeployItem) (e : Exn) :
  select_storedContract s = Throw e ->
  e = mkExn "Error"
        ("Stored Contract could not be parsed." +:+ LF
         +:+ "          Provided session code: "
         +:+ Js.Uint8Array_toString (ExecutableDeployItem_bytes s)).
Proof.
  unfold select_storedContract.
  repeat (destruct (_ s); [discriminate|]).
  by intros [= <-].
Qed.

End decoder.

(** C2: the display of 10000000000 motes is not ["10 CSPR"]: [FixedNumber]
    always writes a fractional part, so the code shows ["10.0 CSPR"]. *)
Lemma motes_10000000000_is_not_10_CSPR :
  convertMotesToCasper "10000000000" +:+ " CSPR" = "10.0 CSPR"
  /\ convertMotesToCasper "10000000000" +:+ " CSPR" <> "10 CSPR".
Proof.
  assert (convertMotesToCasper "10000000000" = "10.0") as ->
    by (vm_compute; reflexivity).
  split; [reflexivity | discriminate].
Qed.

(** C2 (amended): the conversion divides by 10^9 exactly.  For the decimal
    string of [n] motes it returns [n * 10^9] written with eighteen decimals
    (integer part, a dot, the fraction without trailing zeros but with at
    least one digit), a string that reads back as exactly [n * 10^9]
    units of 10^-18; so 10000000000 motes show as ["10.0 CSPR"] and 1 mote
    as ["0.000000001 CSPR"].  A string [FixedNumber.from] refuses converts to
    ["0"] without throwing, and the transfer that carries it still decodes,
    with the amount ["0 CSPR"]. *)
Theorem motes_conversion_exact `{Sdk} (n : N) (s : string) (e : Exn)
    (transferDeploy : TransferDeployItem) (amount : CLValue) :
  Ethers.from_string s = Throw e ->
  Map_get "amount" (transfer_args transferDeploy) = Some amount ->
  CLValue_toString amount = s ->
  convertMotesToCasper (Js.N_toString n)
  = Ethers.formatFixed (Z.of_N n * 1000000000) Ethers.decimals
  /\ Ethers.parseFixed (convertMotesToCasper (Js.N_toString n)) Ethers.decimals
     = Return (Z.of_N n * 1000000000)%Z
  /\ convertMotesToCasper "10000000000" +:+ " CSPR" = "10.0 CSPR"
  /\ convertMotesToCasper "1" +:+ " CSPR" = "0.000000001 CSPR"
  /\ convertMotesToCasper s = "0"
  /\ parseTransferData transferDeploy !! "Amount" = Some (VString "0 CSPR").
Proof.
  intros Hs Hamount Hstr.
  pose proof (convertMotesToCasper_refused s e Hs) as H0.
  split; [apply convertMotesToCasper_digits|].
  split.
  { rewrite convertMotesToCasper_digits. apply parseFixed_formatFixed_string. }
  split; [by vm_compute|]. split; [by vm_compute|]. split; [exact H0|].
  rewrite parseTransferData_entries, Hamount. cbn [fmap option_fmap option_map default].
  rewrite lookup_insert_ne by discriminate.
  rewrite lookup_insert_ne by discriminate.
  rewrite lookup_insert_eq. unfold id. by rewrite Hstr, H0.
Qed.

Lemma motes_conversion_exact_witness :
  convertMotesToCasper (Js.N_toString 25)
  = Ethers.formatFixed 25000000000 Ethers.decimals
  /\ Ethers.parseFixed (convertMotesToCasper (Js.N_toString 25)) Ethers.decimals
     = Return 25000000000%Z
  /\ convertMotesToCasper "10000000000" +:+ " CSPR" = "10.0 CSPR"
  /\ convertMotesToCasper "1" +:+ " CSPR" = "0.000000001 CSPR"
  /\ convertMotesToCasper "12abc" = "0"
  /\ parseTransferData (H := Fixture.sdk)
       (mkTransfer [("amount", CLOther TU512 "12abc")]) !! "Amount"
     = Some (VString "0 CSPR").
Proof.
  apply (motes_conversion_exact (H := Fixture.sdk) 25 "12abc"
           (Ethers.fault "invalid decimal value")
           (mkTransfer [("amount", CLOther TU512 "12abc")])
           (CLOther TU512 "12abc")); vm_compute; reflexivity.
Defined.


(** C3: at the transfer of the scenario (amount 10000000000000, id 35) the
    decoder shows the amount ["10000.0 CSPR"], not ["10000 CSPR"]; the other
    entries and the label are as the scenario says. *)
Lemma transfer_scenario_amount_is_not_10000_CSPR :
  exists info,
    transactionToObject (H := Fixture.sdk)
      (Fixture.legacy Fixture.transferSession) "0202ab" = Return info
    /\ deployType info = "Transfer"
    /\ deployArgs info !! "Motes" = Some (VString "10000000000000")
    /\ deployArgs info !! "Transfer ID" = Some (VString "35")
    /\ deployArgs info !! "Amount" = Some (VString "10000.0 CSPR")
    /\ deployArgs info !! "Amount" <> Some (VString "10000 CSPR").
Proof.
  eexists. split; [vm_compute; reflexivity|].
  split; [vm_compute; reflexivity|]. split; [vm_compute; reflexivity|].
  split; [vm_compute; reflexivity|].
  split; [vm_compute; reflexivity|]. vm_compute. discriminate.
Qed.

(** C3 (amended): a legacy deploy whose session is a transfer decodes to the
    label ["Transfer"] and to a map with exactly the four entries
    [Recipient] (the target argument's own string, or [undefined] without a
    target), [Amount], [Motes] (the amount argument's own string) and
    [Transfer ID] (the id argument's own string, or [undefined] without an
    id).  When the amount is the decimal string of [n] motes, [Amount] is
    [n * 10^9] written with eighteen decimals, trailing zeros of the
    fraction removed but one digit kept, followed by [" CSPR"]: the amount
    10000000000000 shows as ["10000.0 CSPR"]. *)
Theorem transfer_display `{Sdk} (transaction : Transaction) (deploy : Deploy)
    (t : TransferDeployItem) (signingKey : string) (amount : CLValue) (n : N) :
  originDeployV1 transaction = Some deploy ->
  transfer (session deploy) = Some t ->
  Map_get "amount" (transfer_args t) = Some amount ->
  CLValue_toString amount = Js.N_toString n ->
  exists info,
    transactionToObject transaction signingKey = Return info
    /\ deployType info = "Transfer"
    /\ deployArgs info
       = <["Transfer ID" :=
             of_option_string
               (CLValue_toString <$> Map_get "id" (transfer_args t))]>
           (<["Motes" := VString (Js.N_toString n)]>
              (<["Amount" :=
                   VString (Ethers.formatFixed (Z.of_N n * 1000000000)
                              Ethers.decimals +:+ " CSPR")]>
                 (<["Recipient" :=
                      of_option_string
                        (CLValue_toString
                           <$> Map_get "target" (transfer_args t))]> ∅)))
    /\ dom (deployArgs info)
       = ({["Recipient"; "Amount"; "Motes"; "Transfer ID"]} : gset string)
    /\ Ethers.formatFixed (10000000000000 * 1000000000) Ethers.decimals
       +:+ " CSPR" = "10000.0 CSPR".
Proof.
  intros Hd Ht Hamount Hstr.
  destruct (transactionToObject_legacy transaction deploy signingKey
              (parseTransferData t) Hd) as (info & Hinfo & Htype & Hargs).
  { unfold deploy_args. by rewrite Ht. }
  exists info. split; [exact Hinfo|]. split.
  { rewrite Htype. unfold deploy_type.
    by rewrite (isTransfer_Some _ _ Ht). }
  assert (Hentries : deployArgs info
       = <["Transfer ID" :=
             of_option_string
               (CLValue_toString <$> Map_get "id" (transfer_args t))]>
           (<["Motes" := VString (Js.N_toString n)]>
              (<["Amount" :=
                   VString (Ethers.formatFixed (Z.of_N n * 1000000000)
                              Ethers.decimals +:+ " CSPR")]>
                 (<["Recipient" :=
                      of_option_string
                        (CLValue_toString
                           <$> Map_get "target" (transfer_args t))]> ∅)))).
  { rewrite Hargs, parseTransferData_entries, Hamount.
    cbn [fmap option_fmap option_map default]. unfold id.
    by rewrite Hstr, convertMotesToCasper_digits. }
  split; [exact Hentries|]. split.
  - rewrite Hentries, !dom_insert_L, dom_empty_L. set_solver.
  - by vm_compute.
Qed.

Lemma transfer_display_witness :
  exists info,
    transactionToObject (H := Fixture.sdk)
      (Fixture.legacy Fixture.mixedSession) "0202ab" = Return info
    /\ deployType info = "Transfer"
    /\ deployArgs info !! "Amount" = Some (VString "10000.0 CSPR")
    /\ dom (deployArgs info)
       = ({["Recipient"; "Amount"; "Motes"; "Transfer ID"]} : gset string).
Proof.
  destruct (transfer_display (H := Fixture.sdk)
              (Fixture.legacy Fixture.mixedSession)
              (mkDeploy (mkHeader (Some [x01; x02]) 1) Fixture.mixedSession)
              Fixture.transferItem "0202ab"
              (CLOther TU512 "10000000000000") 10000000000000)
    as (info & Hinfo & Htype & Hargs & Hdom & Hex);
    [reflexivity | reflexivity | reflexivity | by vm_compute |].
  exists info. split; [exact Hinfo|]. split; [exact Htype|].
  split; [|exact Hdom].
  rewrite Hargs. rewrite lookup_insert_ne by discriminate.
  rewrite lookup_insert_ne by discriminate.
  rewrite lookup_insert_eq. vm_compute. reflexivity.
Defined.

(** C4: the formatter fails on the collection tags it has a [case] for.
    A value whose tag is List, Result, Map, Tuple1, Tuple2 or Tuple3 makes
    [parseDeployArg] throw a [TypeError] instead of returning a display
    value, and so does an [Option] around it and the loop over the declared
    arguments that meets it.  A value with a tag the formatter has no [case]
    for does format, to its own [toString()]. *)
Theorem format_fails_on_collections `{Sdk} (arg : CLValue) :
  (In (getTypeID arg)
      [TypeID.List; TypeID.Result; TypeID.Map;
       TypeID.Tuple1; TypeID.Tuple2; TypeID.Tuple3] ->
   exists e,
     parseDeployArg arg = Throw e
     /\ exn_name e = "TypeError"
     /\ (forall typeName,
           parseDeployArg (CLOption (Some arg) typeName) = Throw e)
     /\ (forall key rest deployArgs,
           forEach_parse ((key, arg) :: rest) deployArgs = Throw e))
  /\ (forall tag raw,
        arg = CLOther tag raw ->
        parseDeployArg arg = Return (VString (CLValue_toString arg))).
Proof.
  split.
  - intros Htag.
    assert (exists e, parseDeployArg arg = Throw e /\ exn_name e = "TypeError")
      as (e & He & Hname).
    { destruct arg as [ | | | inner typeName | | | | | | | | | tag raw ];
        try (eexists; split; reflexivity);
        cbn [getTypeID In] in Htag;
        try (destruct tag; cbn [OtherTag_id] in Htag);
        exfalso; intuition discriminate. }
    exists e. split; [exact He|]. split; [exact Hname|]. split.
    + intros typeName. exact He.
    + intros key rest deployArgs. cbn [forEach_parse]. by rewrite He.
  - by intros tag raw ->.
Qed.

Lemma format_fails_on_collections_witness :
  parseDeployArg (H := Fixture.sdk) (CLList [CLOther TU8 "1"; CLOther TU8 "2"])
  = Throw (TypeError_undefined "map")
  /\ forEach_parse (H := Fixture.sdk)
       [("ids", CLList [CLOther TU8 "1"; CLOther TU8 "2"])] ∅
     = Throw (mkExn "TypeError"
                "Cannot read properties of undefined (reading 'map')").
Proof.
  destruct (format_fails_on_collections (H := Fixture.sdk)
              (CLList [CLOther TU8 "1"; CLOther TU8 "2"]))
    as [Hfails _].
  destruct Hfails as (e & He & _ & _ & Hloop); [by left|].
  injection He as <-. split; [reflexivity|]. apply Hloop.
Defined.

(** C7: the label of a legacy deploy is one of the four, chosen by the
    session's members in the order transfer, module bytes, stored contract
    by hash or by name, else contract package; a view the decoder returns
    carries that label, and a session with a transfer decodes to
    ["Transfer"] whatever its other members. *)
Theorem deploy_kind_priority `{Sdk} (transaction : Transaction)
    (deploy : Deploy) (signingKey : string) :
  originDeployV1 transaction = Some deploy ->
  (deploy_type deploy = "Transfer"
   \/ deploy_type deploy = "WASM-Based Deploy"
   \/ deploy_type deploy = "Contract Call"
   \/ deploy_type deploy = "Contract Package Call")
  /\ deploy_type deploy
     = (if bool_decide (is_Some (transfer (session deploy)))
        then "Transfer"
        else if bool_decide (is_Some (moduleBytes (session deploy)))
        then "WASM-Based Deploy"
        else if bool_decide (is_Some (storedContractByHash (session deploy))
                             \/ is_Some (storedContractByName (session deploy)))
        then "Contract Call"
        else "Contract Package Call")
  /\ (forall info,
        transactionToObject transaction signingKey = Return info ->
        deployType info = deploy_type deploy)
  /\ (is_Some (transfer (session deploy)) ->
      exists info,
        transactionToObject transaction signingKey = Return info
        /\ deployType info = "Transfer").
Proof.
  intros Hd. split; [apply deploy_type_labels|]. split.
  { unfold deploy_type, isTransfer, isModuleBytes, isStoredContractByHash,
      isStoredContractByName.
    destruct (transfer (session deploy)); [done|].
    destruct (moduleBytes (session deploy)); [done|].
    destruct (storedContractByHash (session deploy)),
      (storedContractByName (session deploy)); simpl;
      repeat case_bool_decide; try done.
    all: exfalso; naive_solver eauto using is_Some_None. }
  split.
  { intros info Hinfo.
    by destruct (transactionToObject_legacy_inv _ _ _ _ Hd Hinfo). }
  intros [t Ht].
  destruct (transactionToObject_legacy transaction deploy signingKey
              (parseTransferData t) Hd) as (info & Hinfo & Htype & _).
  { unfold deploy_args. by rewrite Ht. }
  exists info. split; [exact Hinfo|].
  rewrite Htype. unfold deploy_type. by rewrite (isTransfer_Some _ _ Ht).
Qed.

Lemma deploy_kind_priority_witness :
  exists info,
    transactionToObject (H := Fixture.sdk)
      (Fixture.legacy Fixture.mixedSession) "0202ab" = Return info
    /\ deployType info = "Transfer".
Proof.
  apply (deploy_kind_priority (H := Fixture.sdk)
           (Fixture.legacy Fixture.mixedSession)
           (mkDeploy (mkHeader (Some [x01; x02]) 1) Fixture.mixedSession)
           "0202ab" eq_refl).
  by eexists.
Defined.

(** C8: a legacy deploy whose session has no transfer, no module bytes and
    none of the four stored-contract members does not decode: the decoder
    throws an error whose message ends with the session's bytes. *)
Theorem unparseable_session `{Sdk} (transaction : Transaction)
    (deploy : Deploy) (signingKey : string) :
  originDeployV1 transaction = Some deploy ->
  transfer (session deploy) = None ->
  moduleBytes (session deploy) = None ->
  storedContractByHash (session deploy) = None ->
  storedContractByName (session deploy) = None ->
  storedVersionedContractByHash (session deploy) = None ->
  storedVersionedContractByName (session deploy) = None ->
  transactionToObject transaction signingKey
  = Throw (mkExn "Error"
             ("Stored Contract could not be parsed." +:+ LF
              +:+ "          Provided session code: "
              +:+ Js.Uint8Array_toString
                    (ExecutableDeployItem_bytes (session deploy)))).
Proof.
  intros Hd Ht Hm H1 H2 H3 H4.
  unfold transactionToObject. rewrite Hd.
  unfold deploy_args, select_storedContract.
  by rewrite Ht, Hm, H1, H2, H3, H4.
Qed.

Lemma unparseable_session_witness :
  transactionToObject (H := Fixture.sdk)
    (Fixture.legacy Fixture.emptySession) "0202ab"
  = Throw (mkExn "Error"
             ("Stored Contract could not be parsed." +:+ LF
              +:+ "          Provided session code: 0,42,255")).
Proof.
  apply (unparseable_session (H := Fixture.sdk)
           (Fixture.legacy Fixture.emptySession)
           (mkDeploy (mkHeader (Some [x01; x02]) 1) Fixture.emptySession)
           "0202ab"); reflexivity.
Defined.



(** ** The signature engine *)

Section hex.
Import Js JsFacts.

Lemma hex_byte (b : byte) :
  hex_value (hex_digit (Byte.to_N b / 16)) = Some (Byte.to_N b / 16)%N
  /\ hex_value (hex_digit (Byte.to_N b mod 16)) = Some (Byte.to_N b mod 16)%N
  /\ byte_of_N (16 * (Byte.to_N b / 16) + Byte.to_N b mod 16) = b.
Proof. destruct b; vm_compute; done. Qed.

(** Decoding the hexadecimal form of bytes gives the bytes back. *)
Lemma Buffer_from_hex_encodeBase16 (bs : list byte) :
  Buffer_from_hex (encodeBase16 bs) = bs.
Proof.
  unfold Buffer_from_hex, encodeBase16. rewrite chars_str.
  induction bs as [|b bs IH]; [done|].
  destruct (hex_byte b) as (Hh & Hl & Hb).
  cbn [encodeBase16_chars decode_hex_chars].
  by rewrite Hh, Hl, Hb, IH.
Qed.

End hex.

Section engine.
Context `{Sdk} `{Host}.
#[local] Open Scope list_scope.

(** The address handler when the entropy request fails. *)
Lemma getCSPRAddress_no_entropy (addressIndex : Z) (e : Exn) (w : World) :
  snap_getBip44Entropy 506 = Throw e ->
  getCSPRAddress addressIndex w
  = (Throw e,
     mkWorld (events w ++ [EvGetBip44Entropy 506]) (transaction_object w)).
Proof.
  intros He. unfold getCSPRAddress, request_entropy, mbind, emit, lift.
  cbn. by rewrite He.
Qed.

(** The address handler when the derivation service refuses the index. *)
Lemma getCSPRAddress_refused (addressIndex : Z) (bip44Node : list byte)
    (e : Exn) (w : World) :
  snap_getBip44Entropy 506 = Return bip44Node ->
  getBIP44AddressKeyDeriver bip44Node addressIndex = Throw e ->
  getCSPRAddress addressIndex w
  = (Throw e,
     mkWorld (events w ++ [EvGetBip44Entropy 506; EvDeriveKey addressIndex])
       (transaction_object w)).
Proof.
  intros Hn He. unfold getCSPRAddress, request_entropy, derive, mbind, emit,
    mret, lift. cbn. rewrite Hn. cbn. rewrite He. by rewrite <- app_assoc.
Qed.

(** The address handler when the key is derived: it returns the public key
    when that parses and the error naming the curve when it does not. *)
Lemma getCSPRAddress_derived (addressIndex : Z) (bip44Node : list byte)
    (addressKey : AddressKey) (w : World) :
  snap_getBip44Entropy 506 = Return bip44Node ->
  getBIP44AddressKeyDeriver bip44Node addressIndex = Return addressKey ->
  getCSPRAddress addressIndex w
  = (Return
       match PublicKey_fromBytes
               (Js.Buffer_from_hex
                  ("02" +:+ slice2 (compressedPublicKey addressKey))) with
       | Return pk => RPublicKey (pk_toHex pk)
       | Throw e =>
           RError
             (Error_toString e +:+ " Unsupported curve. Received "
              +:+ curve addressKey +:+ ". "
              +:+ Js.N_toString
                    (N.of_nat (length (compressedPublicKeyBytes addressKey)))
              +:+ " " +:+ key_publicKey addressKey +:+ " "
              +:+ slice2 (compressedPublicKey addressKey)
              +:+ " Only Secp256K1 && Ed25519 are supported.")
       end,
     mkWorld (events w ++ [EvGetBip44Entropy 506; EvDeriveKey addressIndex])
       (transaction_object w)).
Proof.
  intros Hn Hk. unfold getCSPRAddress, request_entropy, derive, mbind,
    mtry, emit, mret, lift. cbn. rewrite Hn. cbn. rewrite Hk.
  rewrite <- app_assoc. by destruct (PublicKey_fromBytes _).
Qed.

(** The address handler when the key is derived and parsed. *)
Lemma getCSPRAddress_returns (addressIndex : Z) (bip44Node : list byte)
    (addressKey : AddressKey) (pk : PublicKey) (w : World) :
  snap_getBip44Entropy 506 = Return bip44Node ->
  getBIP44AddressKeyDeriver bip44Node addressIndex = Return addressKey ->
  PublicKey_fromBytes
    (Js.Buffer_from_hex ("02" +:+ slice2 (compressedPublicKey addressKey)))
  = Return pk ->
  getCSPRAddress addressIndex w
  = (Return (RPublicKey (pk_toHex pk)),
     mkWorld (events w ++ [EvGetBip44Entropy 506; EvDeriveKey addressIndex])
       (transaction_object w)).
Proof.
  intros Hn Hk Hpk. rewrite (getCSPRAddress_derived _ _ _ _ Hn Hk).
  by rewrite Hpk.
Qed.

Lemma truthy_Some (s : string) : s <> "" -> truthy (Some s) = true.
Proof. intros Hs. simpl. by destruct (String.eqb_spec s ""). Qed.


(** The object it leaves is the transaction itself or the transaction with
    one more approval, by the parsed key. *)
Lemma addSignature_object (transaction : Transaction)
    (signature : list byte) (publicKeyHex : string) :
  snd (addSignatureAndValidateTransaction transaction signature publicKeyHex)
  = match PublicKey_fromHex publicKeyHex with
    | Return signer => setSignature signature signer transaction
    | Throw _ => transaction
    end.
Proof.
  unfold addSignatureAndValidateTransaction.
  by destruct (PublicKey_fromHex publicKeyHex).
Qed.

(** One run of [sign] once the public key is parsed and the request is
    decoded: what is returned and the state left, by the user's answer, the
    private key, the curve and what the signature primitives and
    [addSignatureAndValidateTransaction] do. *)
Lemma sign_run (deployJson : Json) (origin : string) (addressIndex : Z)
    (bip44Node : list byte) (addressKey : AddressKey) (pk : PublicKey)
    (transaction : Transaction) (deployInfo : DeployInfo) (w : World) :
  snap_getBip44Entropy 506 = Return bip44Node ->
  getBIP44AddressKeyDeriver bip44Node addressIndex = Return addressKey ->
  PublicKey_fromBytes
    (Js.Buffer_from_hex ("02" +:+ slice2 (compressedPublicKey addressKey)))
  = Return pk ->
  pk_toHex pk <> "" ->
  Transaction_fromJson deployJson = Return transaction ->
  transactionToObject transaction (pk_toHex pk) = Return deployInfo ->
  let prompted :=
    events w ++ [EvGetBip44Entropy 506; EvDeriveKey addressIndex;
                 EvGetBip44Entropy 506; EvDeriveKey addressIndex;
                 EvDialog (SignDeployDialog origin deployInfo transaction)] in
  let attach signature :=
    addSignatureAndValidateTransaction transaction signature (pk_toHex pk) in
  let result signature :=
    match fst (attach signature) with
    | Return response => response
    | Throw e => caught e
    end in
  sign deployJson origin addressIndex w
  = match snap_dialog (SignDeployDialog origin deployInfo transaction) with
    | Throw e => (Return (caught e), mkWorld prompted (Some transaction))
    | Return false => (Return RFalse, mkWorld prompted (Some transaction))
    | Return true =>
        match privateKeyBytes addressKey with
        | Some privateKey =>
            if String.eqb (curve addressKey) "ed25519" then
              match sign_detached (tx_hash transaction) privateKey with
              | Return signature =>
                  (Return (result signature),
                   mkWorld (prompted
                            ++ [EvSignDetached (tx_hash transaction) privateKey])
                     (Some (snd (attach signature))))
              | Throw e =>
                  (Return (caught e),
                   mkWorld (prompted
                            ++ [EvSignDetached (tx_hash transaction) privateKey])
                     (Some transaction))
              end
            else if String.eqb (curve addressKey) "secp256k1" then
              match sha256 (tx_hash transaction) with
              | Return digest =>
                  match ecdsaSign digest privateKey with
                  | Return signature =>
                      (Return (result signature),
                       mkWorld (prompted ++ [EvEcdsaSign digest privateKey])
                         (Some (snd (attach signature))))
                  | Throw e =>
                      (Return (caught e),
                       mkWorld (prompted ++ [EvEcdsaSign digest privateKey])
                         (Some transaction))
                  end
              | Throw e => (Return (caught e), mkWorld prompted (Some transaction))
              end
            else
              (Return (RError ("Unsupported curve : " +:+ curve addressKey
                               +:+ ". Only Secp256K1 && Ed25519 are supported.")),
               mkWorld prompted (Some transaction))
        | None =>
            (Return (RError ("No private key associated with the account "
                             +:+ Js.Z_toString addressIndex +:+ ".")),
             mkWorld prompted (Some transaction))
        end
    end.
Proof.
  intros Hnode Hkey Hpk Htruthy Hjson Hinfo prompted attach result.
  unfold sign. unfold mbind at 1.
  rewrite (getCSPRAddress_returns _ _ _ _ _ Hnode Hkey Hpk).
  cbn [publicKey_of default]. rewrite (truthy_Some _ Htruthy).
  cbn [negb]. unfold id.
  unfold mbind, mtry, lift, store_transaction, request_entropy, derive,
    promptUserDeployInfo, dialog, emit, mret, lift, mbind.
  cbn [events transaction_object].
  rewrite Hjson, Hnode, Hkey, Hinfo. rewrite Buffer_from_hex_encodeBase16.
  subst prompted. rewrite <- !app_assoc. cbn [app].
  destruct (snap_dialog (SignDeployDialog origin deployInfo transaction))
    as [[|]|e]; cbn [negb]; [|reflexivity..].
  destruct (privateKeyBytes addressKey) as [privateKey|]; [|reflexivity].
  destruct (String.eqb (curve addressKey) "ed25519").
  { unfold nacl_sign_detached, attach_and_validate, mbind, emit, mret, lift,
      store_transaction. cbn [events transaction_object].
    destruct (sign_detached (tx_hash transaction) privateKey)
      as [signature|e]; [|by rewrite <- !app_assoc].
    subst result attach. cbv beta zeta.
    destruct (addSignatureAndValidateTransaction _ _ _) as [[r|e] t'];
      cbn [events transaction_object fst snd]; by rewrite <- !app_assoc. }
  destruct (String.eqb (curve addressKey) "secp256k1"); [|reflexivity].
  destruct (sha256 (tx_hash transaction)) as [digest|e]; [|reflexivity].
  unfold secp256k1_ecdsaSign, attach_and_validate, mbind, emit, mret, lift,
    store_transaction. cbn [events transaction_object].
  destruct (ecdsaSign digest privateKey) as [signature|e];
    [|by rewrite <- !app_assoc].
  subst result attach. cbv beta zeta.
  destruct (addSignatureAndValidateTransaction _ _ _) as [[r|e] t'];
    cbn [events transaction_object fst snd]; by rewrite <- !app_assoc.
Qed.

End engine.

(** C1: the curve tag alone does not decide what [sign] does.  With an
    ed25519 key that has private bytes, a user who declines gets [false]
    and nothing is signed.  With a key on another curve, [sign] does not
    return the unsupported-curve error when the user declines (it returns
    [false]), when the request does not decode (it returns the error of
    its [catch]) or when the key's public key does not parse (it returns
    the error that no public key could be got); and with an ed25519 key
    without private bytes it signs nothing after the user accepts. *)
Lemma sign_does_not_go_by_the_curve_tag_alone :
  (getBIP44AddressKeyDeriver (Host := Fixture.host) [x2a] 1
   = Return (Fixture.keyOf "ed25519")
   /\ fst (Samples.run Fixture.host "transfer" "unknown" 1) = Return RFalse
   /\ existsb is_signing
        (events (snd (Samples.run Fixture.host "transfer" "unknown" 1)))
      = false)
  /\ (getBIP44AddressKeyDeriver (Host := Fixture.host) [x2a] 2
      = Return (Fixture.keyOf "p256")
      /\ fst (Samples.run Fixture.host "transfer" "unknown" 2) = Return RFalse
      /\ fst (Samples.run Fixture.host "transfer" "unknown" 2)
         <> Samples.unsupported "p256"
      /\ fst (Samples.run Fixture.host "not json" "dapp" 2)
         <> Samples.unsupported "p256")
  /\ (getBIP44AddressKeyDeriver (Host := Samples.shortKeyHost) [x2a] 4
      = Return (mkAddressKey "0x" [] "0x04ab" (Some [x07]) "bls12381")
      /\ fst (Samples.run Samples.shortKeyHost "transfer" "dapp" 4)
         = Return (RError "Unable to get public key at index 4."))
  /\ (getBIP44AddressKeyDeriver (Host := Samples.watchOnlyHost) [x2a] 3
      = Return (mkAddressKey "0x02ab" [x02; xab] "0x04ab" None "ed25519")
      /\ fst (Samples.run Samples.watchOnlyHost "transfer" "dapp" 3)
         = Return (RError "No private key associated with the account 3.")
      /\ existsb is_signing
           (events (snd (Samples.run Samples.watchOnlyHost "transfer" "dapp" 3)))
         = false).
Proof.
  assert (H2 : fst (Samples.run Fixture.host "transfer" "unknown" 2)
               = Return RFalse) by (vm_compute; reflexivity).
  assert (H3 : fst (Samples.run Fixture.host "not json" "dapp" 2)
               = Return (caught (mkExn "Error" "invalid json")))
    by (vm_compute; reflexivity).
  split; [|split; [|split]].
  - split; [reflexivity|]. split; vm_compute; reflexivity.
  - split; [reflexivity|]. split; [exact H2|].
    split; [rewrite H2 | rewrite H3]; discriminate.
  - split; [reflexivity|]. vm_compute; reflexivity.
  - split; [reflexivity|]. split; vm_compute; reflexivity.
Qed.

(** C1 (amended): once the public key has been parsed, the request decoded
    and the dialog accepted, [sign] goes by the curve tag of a key that has
    private bytes.  For ["ed25519"] it calls [nacl.sign_detached] on the
    transaction's hash bytes themselves; for ["secp256k1"] it calls
    [ecdsaSign] on the SHA-256 digest of the hash bytes; the signature the
    primitive returns is the one passed, with the public key, to
    [addSignatureAndValidateTransaction], whose result is returned and
    whose transaction object is kept; when that call or the primitive
    throws, the result is the error of the [catch].  For any other tag it
    returns the unsupported-curve error naming the tag: no signing
    primitive is called and the transaction keeps its approvals. *)
Theorem sign_curve_dispatch `{Sdk} `{Host} (deployJson : Json)
    (origin : string) (addressIndex : Z) (bip44Node : list byte)
    (addressKey : AddressKey) (pk : PublicKey) (transaction : Transaction)
    (deployInfo : DeployInfo) (privateKey : list byte) (w : World) :
  snap_getBip44Entropy 506 = Return bip44Node ->
  getBIP44AddressKeyDeriver bip44Node addressIndex = Return addressKey ->
  PublicKey_fromBytes
    (Js.Buffer_from_hex ("02" +:+ slice2 (compressedPublicKey addressKey)))
  = Return pk ->
  pk_toHex pk <> "" ->
  Transaction_fromJson deployJson = Return transaction ->
  transactionToObject transaction (pk_toHex pk) = Return deployInfo ->
  snap_dialog (SignDeployDialog origin deployInfo transaction) = Return true ->
  privateKeyBytes addressKey = Some privateKey ->
  let prompted :=
    (events w ++ [EvGetBip44Entropy 506; EvDeriveKey addressIndex;
                  EvGetBip44Entropy 506; EvDeriveKey addressIndex;
                  EvDialog (SignDeployDialog origin deployInfo transaction)])%list in
  let attach signature :=
    addSignatureAndValidateTransaction transaction signature (pk_toHex pk) in
  let result signature :=
    match fst (attach signature) with
    | Return response => response
    | Throw e => caught e
    end in
  (curve addressKey = "ed25519" ->
   sign deployJson origin addressIndex w
   = match sign_detached (tx_hash transaction) privateKey with
     | Return signature =>
         (Return (result signature),
          mkWorld (prompted
                   ++ [EvSignDetached (tx_hash transaction) privateKey])%list
            (Some (snd (attach signature))))
     | Throw e =>
         (Return (caught e),
          mkWorld (prompted
                   ++ [EvSignDetached (tx_hash transaction) privateKey])%list
            (Some transaction))
     end)
  /\ (curve addressKey = "secp256k1" ->
      sign deployJson origin addressIndex w
      = match sha256 (tx_hash transaction) with
        | Return digest =>
            match ecdsaSign digest privateKey with
            | Return signature =>
                (Return (result signature),
                 mkWorld (prompted ++ [EvEcdsaSign digest privateKey])%list
                   (Some (snd (attach signature))))
            | Throw e =>
                (Return (caught e),
                 mkWorld (prompted ++ [EvEcdsaSign digest privateKey])%list
                   (Some transaction))
            end
        | Throw e => (Return (caught e), mkWorld prompted (Some transaction))
        end)
  /\ (curve addressKey <> "ed25519" -> curve addressKey <> "secp256k1" ->
      sign deployJson origin addressIndex w
      = (Return (RError ("Unsupported curve : " +:+ curve addressKey
                         +:+ ". Only Secp256K1 && Ed25519 are supported.")),
         mkWorld prompted (Some transaction))).
Proof.
  intros Hnode Hkey Hpk Htruthy Hjson Hinfo Hyes Hpriv prompted attach
    result.
  pose proof (sign_run deployJson origin addressIndex bip44Node addressKey pk
                transaction deployInfo w Hnode Hkey Hpk Htruthy Hjson Hinfo)
    as Hrun.
  cbv zeta in Hrun. rewrite Hyes, Hpriv in Hrun.
  subst prompted attach result. cbv beta.
  split; [|split].
  - intros Hc. by rewrite Hrun, Hc, String.eqb_refl.
  - intros Hc. rewrite Hrun, Hc.
    destruct (String.eqb_spec "secp256k1" "ed25519") as [Heq|_];
      [discriminate Heq|].
    by rewrite String.eqb_refl.
  - intros Hed Hsecp. rewrite Hrun.
    destruct (String.eqb_spec (curve addressKey) "ed25519"); [done|].
    by destruct (String.eqb_spec (curve addressKey) "secp256k1").
Qed.

Lemma sign_curve_dispatch_witness :
  sign (H := Fixture.sdk) (H0 := Fixture.host) (JsonText "transfer") "dapp" 1
    initial_world
  = (Return (RDeploy (JsonText "deadbeef:eddeadbeef07")),
     mkWorld
       [EvGetBip44Entropy 506; EvDeriveKey 1;
        EvGetBip44Entropy 506; EvDeriveKey 1;
        EvDialog
          (SignDeployDialog "dapp"
             (mkDeployInfo "deadbeef" "0202ab"
                (Some (pk_toHex Fixture.signerKey)) (Some "0102")
                "casper-test" "0" (Some "1") "Transfer"
                (parseTransferData (H := Fixture.sdk) Fixture.transferItem))
             (Fixture.legacy Fixture.transferSession));
        EvSignDetached [xde; xad; xbe; xef] [x07]]
       (Some (setSignature [xed; xde; xad; xbe; xef; x07]
                (mkPublicKey "0202ab")
                (Fixture.legacy Fixture.transferSession)))).
Proof.
  destruct (sign_curve_dispatch (H := Fixture.sdk) (H0 := Fixture.host)
           (JsonText "transfer") "dapp" 1 [x2a] (Fixture.keyOf "ed25519")
           (mkPublicKey "0202ab") (Fixture.legacy Fixture.transferSession)
           (mkDeployInfo "deadbeef" "0202ab"
              (Some (pk_toHex Fixture.signerKey)) (Some "0102")
              "casper-test" "0" (Some "1") "Transfer"
              (parseTransferData (H := Fixture.sdk) Fixture.transferItem))
           [x07] initial_world eq_refl eq_refl eq_refl ltac:(discriminate)
           eq_refl eq_refl eq_refl eq_refl) as (Hed & _ & _).
  rewrite (Hed eq_refl). reflexivity.
Defined.

(** C5: when the user rejects the confirmation dialog, [sign] returns
    [false], not an error; no signing primitive is called and the
    transaction object is the one parsed from the request, with the
    approvals it came with. *)
Theorem sign_declined `{Sdk} `{Host} (deployJson : Json) (origin : string)
    (addressIndex : Z) (bip44Node : list byte) (addressKey : AddressKey)
    (pk : PublicKey) (transaction : Transaction) (deployInfo : DeployInfo)
    (w : World) :
  snap_getBip44Entropy 506 = Return bip44Node ->
  getBIP44AddressKeyDeriver bip44Node addressIndex = Return addressKey ->
  PublicKey_fromBytes
    (Js.Buffer_from_hex ("02" +:+ slice2 (compressedPublicKey addressKey)))
  = Return pk ->
  pk_toHex pk <> "" ->
  Transaction_fromJson deployJson = Return transaction ->
  transactionToObject transaction (pk_toHex pk) = Return deployInfo ->
  snap_dialog (SignDeployDialog origin deployInfo transaction) = Return false ->
  sign deployJson origin addressIndex w
  = (Return RFalse,
     mkWorld
       (events w ++ [EvGetBip44Entropy 506; EvDeriveKey addressIndex;
                     EvGetBip44Entropy 506; EvDeriveKey addressIndex;
                     EvDialog (SignDeployDialog origin deployInfo transaction)])%list
       (Some transaction)).
Proof.
  intros Hnode Hkey Hpk Htruthy Hjson Hinfo Hno.
  pose proof (sign_run deployJson origin addressIndex bip44Node addressKey pk
                transaction deployInfo w Hnode Hkey Hpk Htruthy Hjson Hinfo)
    as Hrun.
  cbv zeta in Hrun. by rewrite Hno in Hrun.
Qed.

Lemma sign_declined_witness :
  sign (H := Fixture.sdk) (H0 := Fixture.host) (JsonText "transfer")
    "unknown" 1 initial_world
  = (Return RFalse,
     mkWorld
       [EvGetBip44Entropy 506; EvDeriveKey 1;
        EvGetBip44Entropy 506; EvDeriveKey 1;
        EvDialog
          (SignDeployDialog "unknown"
             (mkDeployInfo "deadbeef" "0202ab"
                (Some (pk_toHex Fixture.signerKey)) (Some "0102")
                "casper-test" "0" (Some "1") "Transfer"
                (parseTransferData (H := Fixture.sdk) Fixture.transferItem))
             (Fixture.legacy Fixture.transferSession))]
       (Some (Fixture.legacy Fixture.transferSession))).
Proof.
  apply (sign_declined (H := Fixture.sdk) (H0 := Fixture.host)
           (JsonText "transfer") "unknown" 1 [x2a] (Fixture.keyOf "ed25519")
           (mkPublicKey "0202ab") (Fixture.legacy Fixture.transferSession)
           (mkDeployInfo "deadbeef" "0202ab"
              (Some (pk_toHex Fixture.signerKey)) (Some "0102")
              "casper-test" "0" (Some "1") "Transfer"
              (parseTransferData (H := Fixture.sdk) Fixture.transferItem))
           initial_world);
    try reflexivity; try discriminate.
Defined.



(** C9: when the derivation service refuses negative indices, [sign] with a
    negative index fails with the service's error as soon as the key is
    asked for: after the entropy request and the refused derivation nothing
    else happens, so no dialog is shown, nothing is signed and no
    transaction object is created; the same holds through the [casper_sign]
    method of the request handler. *)
Theorem sign_refused_index `{Sdk} `{Host} (e : Exn) (deployJson : Json)
    (origin : string) (addressIndex : Z) (bip44Node : list byte) (w : World) :
  snap_getBip44Entropy 506 = Return bip44Node ->
  (forall node i, (i < 0)%Z -> getBIP44AddressKeyDeriver node i = Throw e) ->
  (addressIndex < 0)%Z ->
  sign deployJson origin addressIndex w
  = (Throw e,
     mkWorld (events w ++ [EvGetBip44Entropy 506; EvDeriveKey addressIndex])%list
       (transaction_object w))
  /\ onRpcRequest origin
       (mkRequest "casper_sign"
          (Some (mkParams (Some addressIndex) (Some deployJson) None))) w
     = (Throw e,
        mkWorld (events w ++ [EvGetBip44Entropy 506; EvDeriveKey addressIndex])%list
          (transaction_object w)).
Proof.
  intros Hnode Hrefuse Hneg.
  assert (Hsign : sign deployJson origin addressIndex w
                  = (Throw e,
                     mkWorld (events w ++ [EvGetBip44Entropy 506;
                                           EvDeriveKey addressIndex])%list
                       (transaction_object w))).
  { unfold sign. unfold mbind at 1.
    by rewrite (getCSPRAddress_refused addressIndex bip44Node e w Hnode
                  (Hrefuse _ _ Hneg)). }
  split; [exact Hsign|].
  unfold onRpcRequest. cbn [method params mbind option_bind param_addressIndex
                             param_deployJson default].
  change (String.eqb "casper_sign" "casper_getAccount") with false.
  change (String.eqb "casper_sign" "casper_sign") with true.
  exact Hsign.
Qed.

Lemma sign_refused_index_witness :
  sign (H := Fixture.sdk) (H0 := Fixture.host) (JsonText "transfer") "dapp"
    (-1) initial_world
  = (Throw Fixture.invalid_index,
     mkWorld [EvGetBip44Entropy 506; EvDeriveKey (-1)] None).
Proof.
  apply (sign_refused_index (H := Fixture.sdk) (H0 := Fixture.host)
           Fixture.invalid_index (JsonText "transfer") "dapp" (-1) [x2a]
           initial_world).
  - reflexivity.
  - intros node i Hi. cbn. by destruct (Z.ltb_spec i 0); [|lia].
  - lia.
Defined.

(** * Further properties *)

(** ** More on the formatter *)

(** X1: the formatter returns exactly on the formattable values, those
    that behind the [Option] values around them are not a list, a map, a
    tuple or a result; what it returns is a string, and on every other
    value it throws a [TypeError].  As it never returns an array,
    [sanitiseNestedLists] completes as the formatter does. *)
Theorem format_returns_exactly_on_formattable_values `{Sdk} (arg : CLValue) :
  ((formattable arg = true
    /\ exists s, parseDeployArg arg = Return (VString s))
   \/ (formattable arg = false
       /\ exists e, parseDeployArg arg = Throw e /\ exn_name e = "TypeError"))
  /\ sanitiseNestedLists arg = parseDeployArg arg.
Proof.
  unfold sanitiseNestedLists. destruct (formattable arg) eqn:Hf.
  - destruct (parseDeployArg_formattable arg Hf) as [s Hs]. rewrite Hs.
    split; [|reflexivity]. left. split; [done|]. by exists s.
  - destruct (parseDeployArg_unformattable arg Hf) as (e & He & Hname).
    rewrite He. split; [|reflexivity]. right. split; [done|]. by exists e.
Qed.

(** ** More on the decoder *)

(** X2: no entry of a view is an array: the formatter returns strings only,
    and a transfer is shown with strings or [undefined]. *)
Theorem view_never_holds_an_array `{Sdk} (transaction : Transaction)
    (signingKey : string) (info : DeployInfo) (key : string)
    (value : JsValue) :
  transactionToObject transaction signingKey = Return info ->
  deployArgs info !! key = Some value ->
  value = VUndefined \/ exists s, value = VString s.
Proof.
  intros Hinfo Hvalue.
  assert (Hempty : forall k v, (∅ : gmap string JsValue) !! k = Some v ->
                               exists s, v = VString s)
    by (intros k v Hk; by rewrite lookup_empty in Hk).
  destruct (originDeployV1 transaction) as [deploy|] eqn:Hd.
  - destruct (transactionToObject_legacy_inv _ _ _ _ Hd Hinfo) as [_ Hargs].
    unfold deploy_args in Hargs.
    destruct (transfer (session deploy)) as [t|].
    { injection Hargs as Hargs. rewrite <- Hargs in Hvalue.
      rewrite parseTransferData_entries in Hvalue.
      apply lookup_insert_Some in Hvalue as [[_ <-]|[_ Hvalue]];
        [apply of_option_string_cases|].
      apply lookup_insert_Some in Hvalue as [[_ <-]|[_ Hvalue]];
        [by right; eexists|].
      apply lookup_insert_Some in Hvalue as [[_ <-]|[_ Hvalue]];
        [by right; eexists|].
      apply lookup_insert_Some in Hvalue as [[_ <-]|[_ Hvalue]];
        [apply of_option_string_cases|].
      by rewrite lookup_empty in Hvalue. }
    destruct (moduleBytes (session deploy)) as [code|].
    { right. by apply (forEach_parse_strings _ _ _ Hargs Hempty key). }
    destruct (select_storedContract (session deploy)) as [sc|e];
      [|discriminate Hargs].
    cbn [cbind] in Hargs.
    destruct (forEach_parse (stored_args sc) ∅) as [declared|e] eqn:Hdecl;
      [|discriminate Hargs].
    cbn [cbind] in Hargs. injection Hargs as Hargs. right.
    rewrite <- Hargs, set_property_other in Hvalue by discriminate.
    apply lookup_insert_Some in Hvalue as [[_ <-]|[_ Hvalue]];
      [by eexists|].
    by apply (forEach_parse_strings _ _ _ Hdecl Hempty key).
  - destruct (transactionToObject_versioned_inv _ _ _ Hd Hinfo) as [_ Hargs].
    right. by apply (forEach_parse_strings _ _ _ Hargs Hempty key).
Qed.

Lemma view_never_holds_an_array_witness :
  exists info s,
    transactionToObject (H := Fixture.sdk) Samples.versioned "0202ab"
    = Return info
    /\ deployArgs info !! "id" = Some (VString s).
Proof.
  destruct (transactionToObject (H := Fixture.sdk) Samples.versioned "0202ab")
    as [info|e] eqn:Hinfo; [|discriminate Hinfo].
  destruct (deployArgs info !! "id") as [value|] eqn:Hvalue.
  - destruct (view_never_holds_an_array (H := Fixture.sdk) Samples.versioned
                "0202ab" info "id" value Hinfo Hvalue) as [->|[s ->]].
    + exfalso. injection Hinfo as <-. discriminate Hvalue.
    + by exists info, s.
  - exfalso. injection Hinfo as <-. discriminate Hvalue.
Defined.

(** X3: an argument that is not formattable blocks the whole view: when
    one is among the arguments the decoder formats, the decoder throws the
    [TypeError] the formatter throws on the first such argument, whatever
    the other arguments are.  The transaction is then not a legacy
    transfer: the arguments of a transfer are not passed to the
    formatter. *)
Theorem unformattable_argument_blocks_the_view `{Sdk}
    (transaction : Transaction) (signingKey key : string)
    (argument : CLValue) :
  first_unformattable (formatted_args transaction) = Some (key, argument) ->
  (exists e,
     parseDeployArg argument = Throw e
     /\ exn_name e = "TypeError"
     /\ transactionToObject transaction signingKey = Throw e)
  /\ (forall deploy,
        originDeployV1 transaction = Some deploy ->
        transfer (session deploy) = None).
Proof.
  intros Hfirst. split.
  - destruct (forEach_parse_first_unformattable _ _ _ ∅ Hfirst)
      as (e & He & Hname & Hloop).
    exists e. split; [exact He|]. split; [exact Hname|].
    unfold formatted_args in Hfirst, Hloop. unfold transactionToObject.
    destruct (originDeployV1 transaction) as [deploy|].
    + unfold deploy_args.
      destruct (transfer (session deploy)) as [t|]; [discriminate Hfirst|].
      destruct (moduleBytes (session deploy)) as [code|];
        [by rewrite Hloop|].
      destruct (select_storedContract (session deploy)) as [sc|e'];
        [|discriminate Hfirst].
      cbn [cbind]. by rewrite Hloop.
    + destruct (originTransactionV1 transaction); [|discriminate Hfirst].
      by rewrite Hloop.
  - intros deploy Hd. unfold formatted_args in Hfirst.
    rewrite Hd in Hfirst.
    by destruct (transfer (session deploy)).
Qed.

Lemma unformattable_argument_blocks_the_view_witness :
  transactionToObject (H := Fixture.sdk)
    (Fixture.legacy Samples.listSession) "0202ab"
  = Throw (TypeError_undefined "map").
Proof.
  destruct (unformattable_argument_blocks_the_view (H := Fixture.sdk)
              (Fixture.legacy Samples.listSession) "0202ab" "ids"
              (CLList [CLOther TU8 "1"; CLOther TU8 "2"]) eq_refl)
    as [(e & He & _ & Hthrows) _].
  injection He as <-. exact Hthrows.
Defined.

(** X4: when the names of the declared arguments are distinct, as the keys
    of a [Map] are, each argument whose name is not [__proto__] is shown
    under its own name with its own format. *)
Theorem declared_argument_is_shown `{Sdk} (args : Args)
    (m : gmap string JsValue) (key : string) (argument : CLValue) :
  NoDup (declared_names args) ->
  (key, argument) ∈ args ->
  key <> "__proto__" ->
  forEach_parse args ∅ = Return m ->
  exists parsed,
    parseDeployArg argument = Return parsed /\ m !! key = Some parsed.
Proof. apply forEach_parse_lookup. Qed.

Lemma declared_argument_is_shown_witness :
  exists m,
    forEach_parse (H := Fixture.sdk)
      [("__proto__", CLOther TString "hidden"); ("amount", CLOther TU512 "5")]
      ∅ = Return m
    /\ m !! "amount" = Some (VString "5").
Proof.
  eexists. split; [reflexivity|].
  destruct (declared_argument_is_shown (H := Fixture.sdk)
              [("__proto__", CLOther TString "hidden");
               ("amount", CLOther TU512 "5")]
              (<["amount" := VString "5"]> ∅) "amount" (CLOther TU512 "5"))
    as (parsed & Hparsed & Hlookup).
  - repeat constructor; set_solver.
  - set_solver.
  - discriminate.
  - reflexivity.
  - injection Hparsed as <-. exact Hlookup.
Defined.

(** X5: an argument named [__proto__] is never shown: whatever the
    transaction, the view returned has no entry of that name. *)
Theorem proto_argument_is_never_shown `{Sdk} (transaction : Transaction)
    (signingKey : string) (info : DeployInfo) :
  transactionToObject transaction signingKey = Return info ->
  deployArgs info !! "__proto__" = None.
Proof.
  intros Hinfo. destruct (originDeployV1 transaction) as [deploy|] eqn:Hd.
  - destruct (transactionToObject_legacy_inv _ _ _ _ Hd Hinfo) as [_ Hargs].
    by apply (deploy_args_lookup_proto deploy).
  - destruct (transactionToObject_versioned_inv _ _ _ Hd Hinfo) as [_ Hargs].
    by rewrite (forEach_parse_lookup_proto _ _ _ Hargs).
Qed.

Lemma proto_argument_is_never_shown_witness :
  Map_get "__proto__" (moduleBytes_args
                         (default (mkModuleBytes [] [])
                            (moduleBytes Samples.wasmSession)))
  = Some (CLOther TString "hidden")
  /\ exists info,
       transactionToObject (H := Fixture.sdk)
         (Fixture.legacy Samples.wasmSession) "0202ab" = Return info
       /\ deployArgs info !! "__proto__" = None.
Proof.
  split; [reflexivity|]. eexists. split; [by vm_compute|].
  eapply (proto_argument_is_never_shown (H := Fixture.sdk)
            (Fixture.legacy Samples.wasmSession) "0202ab").
  by vm_compute.
Defined.

(** X6: for a legacy deploy without a transfer, the names shown are exactly
    the declared names other than [__proto__], and for a stored contract
    the name [Entry Point] besides: nothing else is shown and no other
    declared argument is left out. *)
Theorem shown_names_are_the_declared_ones `{Sdk} (transaction : Transaction)
    (deploy : Deploy) (signingKey : string) (info : DeployInfo) :
  originDeployV1 transaction = Some deploy ->
  transfer (session deploy) = None ->
  transactionToObject transaction signingKey = Return info ->
  match moduleBytes (session deploy) with
  | Some code => dom (deployArgs info) = shown_names (moduleBytes_args code)
  | None =>
      exists storedContract,
        select_storedContract (session deploy) = Return storedContract
        /\ dom (deployArgs info)
           = {["Entry Point"]} ∪ shown_names (stored_args storedContract)
  end.
Proof.
  intros Hd Ht Hinfo.
  destruct (transactionToObject_legacy_inv _ _ _ _ Hd Hinfo) as [_ Hargs].
  unfold deploy_args in Hargs. rewrite Ht in Hargs.
  destruct (moduleBytes (session deploy)) as [code|].
  { rewrite (forEach_parse_dom _ _ _ Hargs), dom_empty_L. set_solver. }
  destruct (select_storedContract (session deploy)) as [sc|e]; [|discriminate].
  cbn [cbind] in Hargs.
  destruct (forEach_parse (stored_args sc) ∅) as [declared|e] eqn:Hdecl;
    [|discriminate].
  cbn [cbind] in Hargs. injection Hargs as Hargs.
  exists sc. split; [done|].
  rewrite <- Hargs, set_property_dom, (forEach_parse_dom _ _ _ Hdecl),
    dom_empty_L.
  rewrite decide_True by discriminate. set_solver.
Qed.

Lemma shown_names_are_the_declared_ones_witness :
  exists info,
    transactionToObject (H := Fixture.sdk)
      (Fixture.legacy Fixture.contractSession) "0202ab" = Return info
    /\ dom (deployArgs info) = ({["Entry Point"; "step"]} : gset string).
Proof.
  eexists. split; [by vm_compute|].
  destruct (shown_names_are_the_declared_ones (H := Fixture.sdk)
              (Fixture.legacy Fixture.contractSession)
              (mkDeploy (mkHeader (Some [x01; x02]) 1) Fixture.contractSession)
              "0202ab" _ eq_refl eq_refl ltac:(by vm_compute))
    as (sc & Hsc & Hdom).
  injection Hsc as <-. rewrite Hdom. by vm_compute.
Defined.

(** X7: the decoder fails in three ways only: on a transaction that is
    neither a legacy deploy nor a version 1 transaction, on a legacy session
    without any of its six members, and with the [TypeError] of the
    formatter on the first declared argument that is not formattable. *)
Theorem decoder_failures `{Sdk} (transaction : Transaction)
    (signingKey : string) (e : Exn) :
  transactionToObject transaction signingKey = Throw e ->
  (originDeployV1 transaction = None
   /\ originTransactionV1 transaction = false
   /\ e = mkExn "Error" "Unsupported transaction type")
  \/ (exists deploy,
        originDeployV1 transaction = Some deploy
        /\ transfer (session deploy) = None
        /\ moduleBytes (session deploy) = None
        /\ select_storedContract (session deploy) = Throw e
        /\ e = mkExn "Error"
                 ("Stored Contract could not be parsed." +:+ LF
                  +:+ "          Provided session code: "
                  +:+ Js.Uint8Array_toString
                        (ExecutableDeployItem_bytes (session deploy))))
  \/ (exists key argument,
        first_unformattable (formatted_args transaction)
        = Some (key, argument)
        /\ parseDeployArg argument = Throw e
        /\ exn_name e = "TypeError").
Proof.
  intros Hthrows.
  destruct (transactionToObject_throws _ _ _ Hthrows)
    as [Hunsupported|[(deploy & Hd & Ht & Hm & Hsel)|Hloop]].
  - by left.
  - right; left. exists deploy. repeat (split; [done|]).
    by apply select_storedContract_throws.
  - right; right.
    destruct (first_unformattable (formatted_args transaction))
      as [[key argument]|] eqn:Hfirst.
    + destruct (forEach_parse_first_unformattable _ _ _ ∅ Hfirst)
        as (e' & He' & Hname & Hloop').
      rewrite Hloop in Hloop'. injection Hloop' as ->.
      by exists key, argument.
    + destruct (forEach_parse_total _ ∅ Hfirst) as [m Hm].
      rewrite Hm in Hloop. discriminate Hloop.
Qed.

Lemma decoder_failures_witness :
  exists key argument,
    first_unformattable
      (formatted_args (H := Fixture.sdk) (Fixture.legacy Samples.listSession))
    = Some (key, argument)
    /\ parseDeployArg (H := Fixture.sdk) argument
       = Throw (TypeError_undefined "map").
Proof.
  destruct (decoder_failures (H := Fixture.sdk)
              (Fixture.legacy Samples.listSession) "0202ab"
              (TypeError_undefined "map") eq_refl)
    as [(Hd & _)|[(deploy & Hd & _ & _ & Hsel & _)|Hformat]].
  - discriminate Hd.
  - injection Hd as <-. discriminate Hsel.
  - destruct Hformat as (key & argument & Hfirst & Hthrows & _).
    by exists key, argument.
Defined.

(** X8: a version 1 transaction whose arguments are all formattable
    decodes; its label is the entry point's custom name when there is one
    and its type otherwise, its body hash is the hexadecimal form of the
    entry point's bytes, it has no gas price, and its arguments are shown
    under their declared names: a native transfer gets no [Amount], [Motes]
    or [Recipient] entry unless it declares one. *)
Theorem versioned_view `{Sdk} (transaction : Transaction)
    (signingKey : string) :
  originDeployV1 transaction = None ->
  originTransactionV1 transaction = true ->
  first_unformattable (tx_args transaction) = None ->
  exists info,
    transactionToObject transaction signingKey = Return info
    /\ deployType info
       = match customEntryPoint (tx_entryPoint transaction) with
         | Some name => name
         | None => entryPoint_type (tx_entryPoint transaction)
         end
    /\ info_bodyHash info
       = Some (Js.encodeBase16 (entryPoint_toBytes (tx_entryPoint transaction)))
    /\ info_gasPrice info = None
    /\ forEach_parse (tx_args transaction) ∅ = Return (deployArgs info)
    /\ dom (deployArgs info) = shown_names (tx_args transaction).
Proof.
  intros Hd Hv Hf.
  destruct (forEach_parse_total (tx_args transaction) ∅ Hf) as [m Hm].
  unfold transactionToObject. rewrite Hd, Hv, Hm. cbn [cbind].
  eexists. split; [reflexivity|].
  cbn [deployType info_bodyHash info_gasPrice deployArgs].
  split; [by destruct (customEntryPoint _)|].
  do 3 (split; [done|]).
  rewrite (forEach_parse_dom _ _ _ Hm), dom_empty_L. set_solver.
Qed.

Lemma versioned_view_witness :
  exists info,
    transactionToObject (H := Fixture.sdk) Samples.versioned "0202ab"
    = Return info
    /\ deployType info = "Transfer"
    /\ dom (deployArgs info) = ({["target"; "amount"; "id"]} : gset string).
Proof.
  destruct (versioned_view (H := Fixture.sdk) Samples.versioned "0202ab"
              eq_refl eq_refl eq_refl)
    as (info & Hinfo & Htype & _ & _ & _ & Hdom).
  exists info. split; [exact Hinfo|]. split; [exact Htype|].
  rewrite Hdom. by vm_compute.
Defined.

(** X9: a transfer shows its target, amount and id and nothing else: the
    map has the same four names whatever is declared, and two transfers
    that agree on those three arguments are shown alike, whatever other
    arguments (a source purse, say) they declare. *)
Theorem transfer_shows_three_arguments `{Sdk} (t t' : TransferDeployItem) :
  Map_get "target" (transfer_args t) = Map_get "target" (transfer_args t') ->
  Map_get "amount" (transfer_args t) = Map_get "amount" (transfer_args t') ->
  Map_get "id" (transfer_args t) = Map_get "id" (transfer_args t') ->
  parseTransferData t = parseTransferData t'
  /\ dom (parseTransferData t)
     = ({["Recipient"; "Amount"; "Motes"; "Transfer ID"]} : gset string).
Proof.
  intros Htarget Hamount Hid. rewrite !parseTransferData_entries.
  rewrite Htarget, Hamount, Hid. split; [done|].
  rewrite !dom_insert_L, dom_empty_L. set_solver.
Qed.

Lemma transfer_shows_three_arguments_witness :
  parseTransferData (H := Fixture.sdk)
    (mkTransfer (("source", CLURef "uref-purse") :: transfer_args Fixture.transferItem))
  = parseTransferData (H := Fixture.sdk) Fixture.transferItem.
Proof.
  apply (transfer_shows_three_arguments (H := Fixture.sdk)
           (mkTransfer (("source", CLURef "uref-purse")
                        :: transfer_args Fixture.transferItem))
           Fixture.transferItem); reflexivity.
Defined.

(** X10: a transfer without an amount argument still decodes: the amount
    is shown as ["0 CSPR"] and the motes as the empty string; a missing
    target or id is shown as [undefined] under its name. *)
Theorem transfer_without_amount `{Sdk} (t : TransferDeployItem) :
  Map_get "amount" (transfer_args t) = None ->
  parseTransferData t !! "Amount" = Some (VString "0 CSPR")
  /\ parseTransferData t !! "Motes" = Some (VString "")
  /\ (Map_get "target" (transfer_args t) = None ->
      parseTransferData t !! "Recipient" = Some VUndefined)
  /\ (Map_get "id" (transfer_args t) = None ->
      parseTransferData t !! "Transfer ID" = Some VUndefined).
Proof.
  intros Hamount. rewrite parseTransferData_entries, Hamount.
  cbn [fmap option_fmap option_map default].
  assert (convertMotesToCasper "" = "0") as -> by (by vm_compute).
  split; [by rewrite !lookup_insert_ne, lookup_insert_eq by discriminate|].
  split; [by rewrite !lookup_insert_ne, lookup_insert_eq by discriminate|].
  split.
  - intros ->. by rewrite !lookup_insert_ne, lookup_insert_eq by discriminate.
  - intros ->. by rewrite lookup_insert_eq.
Qed.

Lemma transfer_without_amount_witness :
  parseTransferData (H := Fixture.sdk) (mkTransfer []) !! "Amount"
  = Some (VString "0 CSPR").
Proof.
  apply (transfer_without_amount (H := Fixture.sdk) (mkTransfer []) eq_refl).
Defined.

(** X11: the view names what is signed: its signing key is the key the
    decoder was given, its hash is the hexadecimal form of the
    transaction's hash, which decodes back to the hash bytes, its chain is
    the transaction's, and its account is the initiator's public key when
    there is one and its account hash otherwise. *)
Theorem view_names_what_is_signed `{Sdk} (transaction : Transaction)
    (key : string) (info : DeployInfo) :
  transactionToObject transaction key = Return info ->
  signingKey info = key
  /\ deployHash info = Js.encodeBase16 (tx_hash transaction)
  /\ Js.Buffer_from_hex (deployHash info) = tx_hash transaction
  /\ info_chainName info = chainName transaction
  /\ account info
     = match initiator_publicKey (initiatorAddr transaction) with
       | Some pk => Some (pk_toHex pk)
       | None => ah_toHex <$> initiator_accountHash (initiatorAddr transaction)
       end.
Proof.
  unfold transactionToObject.
  destruct (originDeployV1 transaction) as [deploy|].
  - destruct (deploy_args deploy) as [m|e]; [|discriminate].
    cbn [cbind]. intros [= <-].
    cbn [signingKey deployHash info_chainName account].
    by rewrite Buffer_from_hex_encodeBase16.
  - destruct (originTransactionV1 transaction); [|discriminate].
    destruct (forEach_parse (tx_args transaction) ∅) as [m|e]; [|discriminate].
    cbn [cbind]. intros [= <-].
    cbn [signingKey deployHash info_chainName account].
    by rewrite Buffer_from_hex_encodeBase16.
Qed.

Lemma view_names_what_is_signed_witness :
  exists info,
    transactionToObject (H := Fixture.sdk) Samples.versioned "0202ab"
    = Return info
    /\ Js.Buffer_from_hex (deployHash info) = [xca; xfe]
    /\ account info = Some "aa11".
Proof.
  eexists. split; [by vm_compute|].
  destruct (view_names_what_is_signed (H := Fixture.sdk) Samples.versioned
              "0202ab" _ ltac:(by vm_compute)) as (_ & _ & Hhash & _ & Hacc).
  split; [exact Hhash | exact Hacc].
Defined.

(** ** More on motes *)

Section motes_more.
Import Js JsFacts Ethers EthersFacts.
#[local] Open Scope list_scope.

(** [parseFixed] on a minus sign and digits. *)
Lemma parseFixed_chars_minus_digits (n : N) (d : nat) :
  parseFixed_chars ("-"%char :: digits n) d
  = Return (Z.of_N n * Z.of_N (multiplier d) * -1)%Z.
Proof.
  pose proof (digits_of_all_digits (N.to_nat (N.size n)) n) as HW.
  pose proof (digits_value_digits n) as Hw.
  fold (digits n) in HW.
  destruct (digits n) as [|c W] eqn:E; [done|].
  assert (Hm : matches_decimal ("-"%char :: c :: W) = true).
  { unfold matches_decimal. rewrite Ascii.eqb_refl.
    by apply forallb_digit_or_dot. }
  unfold parseFixed_chars. rewrite Hm. simpl negb. cbv iota zeta.
  rewrite Ascii.eqb_refl. cbn [tl].
  rewrite bool_decide_false.
  2:{ intros [= -> _]. discriminate HW. }
  rewrite split_on_no_dot by done.
  simpl length. simpl Nat.ltb. cbv iota. simpl nth.
  change (or_zero (c :: W)) with (c :: W).
  change (trim_trailing_zeros (or_zero [])) with (@nil ascii).
  change (or_zero []) with ["0"%char].
  simpl length. replace (d <? 0)%nat with false by (by destruct d).
  rewrite Hw.
  assert (Hz : digits_value (pad_right d ["0"%char]) = Some 0%N).
  { unfold pad_right. simpl. clear.
    induction (d - 1)%nat as [|k IH]; [done|]. exact IH. }
  rewrite Hz. f_equal. lia.
Qed.

Lemma formatFixed_negative (z : Z) :
  (0 < z)%Z ->
  formatFixed (- z) decimals = "-" +:+ formatFixed z decimals.
Proof.
  intros Hz. unfold formatFixed, formatFixed_chars.
  assert ((- z <? 0)%Z = true) as -> by (apply Z.ltb_lt; lia).
  assert ((z <? 0)%Z = false) as -> by (apply Z.ltb_ge; lia).
  by rewrite Zabs2N.inj_opp.
Qed.

(** The conversion in terms of the quotient by 10^9. *)
Lemma convertMotesToCasper_quot (s : string) (z : Z) :
  parseFixed s decimals = Return z ->
  convertMotesToCasper s = formatFixed (Z.quot z 1000000000) decimals.
Proof.
  intros Hs. rewrite (convertMotesToCasper_parsed s z Hs). f_equal.
  change 1000000000000000000000000000%Z
    with (1000000000 * 1000000000000000000)%Z.
  apply Z.quot_mul_cancel_r; lia.
Qed.

End motes_more.

(** X12: the conversion of any decimal string [FixedNumber] accepts divides
    its value by 10^9 and drops what lies beyond the eighteenth decimal:
    when the string reads as [z] units of 10^-18, the result is [z]
    divided by 10^9, rounded toward zero, written with eighteen decimals. *)
Theorem motes_conversion_truncates (s : string) (z : Z) :
  Ethers.parseFixed s Ethers.decimals = Return z ->
  convertMotesToCasper s
  = Ethers.formatFixed (Z.quot z 1000000000) Ethers.decimals.
Proof. apply convertMotesToCasper_quot. Qed.

Lemma motes_conversion_truncates_witness :
  convertMotesToCasper "0.0000000019" = "0.000000000000000001".
Proof.
  rewrite (motes_conversion_truncates "0.0000000019" 1900000000);
    by vm_compute.
Defined.

(** X13: two different amounts of motes never show alike: the conversion
    is injective on the decimal strings of the natural numbers. *)
Theorem motes_conversion_injective (n m : N) :
  n <> m ->
  convertMotesToCasper (Js.N_toString n)
  <> convertMotesToCasper (Js.N_toString m).
Proof.
  intros Hne Heq. apply Hne.
  assert (Hn := parseFixed_formatFixed_string (Z.of_N n * 1000000000)).
  assert (Hm := parseFixed_formatFixed_string (Z.of_N m * 1000000000)).
  rewrite <- !convertMotesToCasper_digits in Hn, Hm.
  rewrite Heq, Hm in Hn. injection Hn. lia.
Qed.

Lemma motes_conversion_injective_witness :
  convertMotesToCasper (Js.N_toString 10)
  <> convertMotesToCasper (Js.N_toString 100).
Proof.
  apply (motes_conversion_injective 10 100). lia.
Defined.

(** X14: a negative amount is not refused: the decimal string of [n]
    motes behind a minus sign converts to the conversion of [n] behind a
    minus sign. *)
Theorem negative_motes_are_converted (n : N) :
  (0 < n)%N ->
  convertMotesToCasper ("-" +:+ Js.N_toString n)
  = "-" +:+ convertMotesToCasper (Js.N_toString n).
Proof.
  intros Hn.
  rewrite (convertMotesToCasper_quot ("-" +:+ Js.N_toString n)
             (Z.of_N n * 1000000000000000000 * -1)).
  - rewrite convertMotesToCasper_digits.
    rewrite <- formatFixed_negative by lia. f_equal.
    replace (Z.of_N n * 1000000000000000000 * -1)%Z
      with (- (Z.of_N n * 1000000000) * 1000000000)%Z by lia.
    rewrite Z.quot_mul by lia. reflexivity.
  - unfold Ethers.parseFixed, Js.N_toString.
    change (Js.chars ("-" +:+ Js.str (Js.digits n)))
      with ("-"%char :: Js.chars (Js.str (Js.digits n))).
    rewrite JsFacts.chars_str. apply parseFixed_chars_minus_digits.
Qed.

Lemma negative_motes_are_converted_witness :
  convertMotesToCasper ("-" +:+ Js.N_toString 25) = "-0.000000025".
Proof.
  rewrite (negative_motes_are_converted 25); [by vm_compute | lia].
Defined.

(** ** The payment rows *)

(** X15: the payment rows start with the row [Payment Type], whose text is
    one of the four kinds: a limited payment wins over a fixed one and a
    fixed one over a prepaid one, and a transaction with no pricing mode
    gets the single row ["Not supported"].  No later row repeats the
    label. *)
Theorem payment_type_row (transaction : Transaction) :
  exists kind rest,
    rows (Payment transaction) = ("Payment Type", TextString kind) :: rest
    /\ kind
       = (if bool_decide (is_Some (paymentLimited (pricingMode transaction)))
          then "Limited"
          else if bool_decide (is_Some (fixed (pricingMode transaction)))
          then "Fixed"
          else if bool_decide (is_Some (prepaid (pricingMode transaction)))
          then "Prepaid"
          else "Not supported")
    /\ (kind = "Not supported" <-> rest = [])
    /\ Forall (fun row => fst row <> "Payment Type") rest.
Proof.
  unfold Payment.
  destruct (paymentLimited (pricingMode transaction)) as [limited|].
  { do 2 eexists. split; [reflexivity|]. split; [done|]. split; [by split|].
    repeat constructor; discriminate. }
  destruct (fixed (pricingMode transaction)) as [mode|].
  { do 2 eexists. split; [reflexivity|]. split; [done|]. split; [by split|].
    repeat constructor; discriminate. }
  destruct (prepaid (pricingMode transaction)) as [mode|].
  { do 2 eexists. split; [reflexivity|]. split; [done|]. split; [by split|].
    repeat constructor; discriminate. }
  do 2 eexists. split; [reflexivity|]. split; [done|]. split; [by split|].
  constructor.
Qed.

(** ** More on the handlers *)

(** Unfolds a handler down to the calls of its collaborators. *)
Ltac unfold_handler :=
  unfold sign, signMessage, getCSPRAddress, promptUserDeployInfo,
    attach_and_validate, addSignatureAndValidateTransaction,
    nacl_sign_detached, secp256k1_ecdsaSign,
    request_entropy, derive, dialog, mbind, mtry, mret, mthrow, lift, emit,
    store_transaction;
  cbn [events transaction_object].

(** Splits a run of a handler by the answers of its collaborators and
    names the events it added. *)
Ltac split_run :=
  repeat case_match; simplify_eq; cbn [events transaction_object];
  intros [= <- <-]; cbn [events transaction_object];
  (eexists; split; [by rewrite <- ?app_assoc|]);
  cbn [app existsb approved is_signing is_dialog orb List.filter length].

(** X16: whatever the request and the answers of the collaborators, [sign]
    only adds events to the trace, shows at most one dialog and calls a
    signing primitive at most once; unless the user accepted the dialog it
    signs nothing and leaves the transaction object untouched or as parsed
    from the request; and in every case the object is untouched, as
    parsed, or as parsed with one more approval. *)
Theorem sign_needs_approval `{Sdk} `{Host} (deployJson : Json)
    (origin : string) (addressIndex : Z) (w w' : World)
    (r : completion Response) :
  sign deployJson origin addressIndex w = (r, w') ->
  exists new,
    events w' = (events w ++ new)%list
    /\ (length (List.filter is_dialog new) <= 1)%nat
    /\ (length (List.filter is_signing new) <= 1)%nat
    /\ (existsb approved new = false ->
        existsb is_signing new = false
        /\ (transaction_object w' = transaction_object w
            \/ exists transaction,
                 Transaction_fromJson deployJson = Return transaction
                 /\ transaction_object w' = Some transaction))
    /\ (transaction_object w' = transaction_object w
        \/ exists transaction,
             Transaction_fromJson deployJson = Return transaction
             /\ (transaction_object w' = Some transaction
                 \/ exists sig publicKeyHex signer,
                      PublicKey_fromHex publicKeyHex = Return signer
                      /\ transaction_object w'
                         = Some (setSignature sig signer transaction))).
Proof.
  unfold_handler. split_run.
  all: repeat match goal with
         | Hd : snap_dialog _ = _ |- _ => rewrite Hd; clear Hd
         end.
  all: split; [lia|]; split; [lia|]; rewrite ?orb_false_r; split;
    [intros Hno;
     first [ rewrite Hno in *; discriminate | split; [done | eauto] | idtac ]
    |eauto 12].
Qed.

Lemma sign_needs_approval_witness :
  exists new,
    [EvGetBip44Entropy 506; EvDeriveKey 1; EvGetBip44Entropy 506;
     EvDeriveKey 1;
     EvDialog
       (SignDeployDialog "unknown"
          (mkDeployInfo "deadbeef" "0202ab"
             (Some (pk_toHex Fixture.signerKey)) (Some "0102")
             "casper-test" "0" (Some "1") "Transfer"
             (parseTransferData (H := Fixture.sdk) Fixture.transferItem))
          (Fixture.legacy Fixture.transferSession))]
    = ([] ++ new)%list
    /\ (length (List.filter is_signing new) <= 1)%nat.
Proof.
  destruct (sign_needs_approval (H := Fixture.sdk) (H0 := Fixture.host)
              (JsonText "transfer") "unknown" 1 initial_world
              (mkWorld
                 [EvGetBip44Entropy 506; EvDeriveKey 1; EvGetBip44Entropy 506;
                  EvDeriveKey 1;
                  EvDialog
                    (SignDeployDialog "unknown"
                       (mkDeployInfo "deadbeef" "0202ab"
                          (Some (pk_toHex Fixture.signerKey)) (Some "0102")
                          "casper-test" "0" (Some "1") "Transfer"
                          (parseTransferData (H := Fixture.sdk)
                             Fixture.transferItem))
                       (Fixture.legacy Fixture.transferSession))]
                 (Some (Fixture.legacy Fixture.transferSession)))
              (Return RFalse) eq_refl)
    as (new & Hnew & _ & Hsign & _).
  exists new. split; [exact Hnew | exact Hsign].
Defined.

(** X17: [signMessage] never touches a transaction object; it only adds
    events to the trace, shows at most one dialog and signs at most once,
    and it signs nothing unless the user accepted the dialog. *)
Theorem signMessage_needs_approval `{Sdk} `{Host} (message : option string)
    (origin : string) (addressIndex : Z) (w w' : World)
    (r : completion Response) :
  signMessage message origin addressIndex w = (r, w') ->
  exists new,
    events w' = (events w ++ new)%list
    /\ transaction_object w' = transaction_object w
    /\ (length (List.filter is_dialog new) <= 1)%nat
    /\ (length (List.filter is_signing new) <= 1)%nat
    /\ (existsb approved new = false -> existsb is_signing new = false).
Proof.
  unfold_handler. split_run.
  all: cbn [default from_option publicKey_of] in *; unfold id in *.
  all: repeat match goal with
         | Hd : snap_dialog _ = _ |- _ => rewrite Hd; clear Hd
         end.
  all: split; [done|]; split; [lia|]; split; [lia|]; rewrite ?orb_false_r;
    intros Hno; first [ rewrite Hno in *; discriminate | done ].
Qed.

Lemma signMessage_needs_approval_witness :
  exists new,
    [EvGetBip44Entropy 506; EvDeriveKey 1; EvGetBip44Entropy 506;
     EvDeriveKey 1;
     EvDialog (SignMessageDialog "unknown" "0202ab" (Some "hello"))]
    = ([] ++ new)%list
    /\ existsb is_signing new = false.
Proof.
  destruct (signMessage_needs_approval (H := Fixture.sdk) (H0 := Fixture.host)
              (Some "hello") "unknown" 1 initial_world
              (mkWorld
                 [EvGetBip44Entropy 506; EvDeriveKey 1; EvGetBip44Entropy 506;
                  EvDeriveKey 1;
                  EvDialog (SignMessageDialog "unknown" "0202ab" (Some "hello"))]
                 None)
              (Return RFalse) eq_refl)
    as (new & Hnew & _ & _ & _ & Hsign).
  exists new. split; [exact Hnew|]. apply Hsign.
  cbn in Hnew. by subst new.
Defined.

(** X18: which errors the handlers throw.  The address handler throws only
    what the entropy request or the key derivation throws: a public key
    that does not parse gives an error result.  The [try] of [sign] covers
    everything after the address step, so [sign] throws only what the
    address handler throws, leaving the state the address handler left:
    whatever [Transaction.fromJson], the decoder, the dialog, the signature
    primitives, [sha256] or the validation throw becomes an error result.
    [signMessage] has no [try]: when its dialog throws, it throws the same
    value. *)
Theorem sign_throws_only_from_the_address_step `{Sdk} `{Host}
    (deployJson : Json) (message : option string) (origin : string)
    (addressIndex : Z) (w w' : World) (e : Exn) :
  (getCSPRAddress addressIndex w = (Throw e, w') ->
   snap_getBip44Entropy 506 = Throw e
   \/ exists bip44Node,
        snap_getBip44Entropy 506 = Return bip44Node
        /\ getBIP44AddressKeyDeriver bip44Node addressIndex = Throw e)
  /\ (sign deployJson origin addressIndex w = (Throw e, w') ->
      getCSPRAddress addressIndex w = (Throw e, w'))
  /\ (forall bip44Node addressKey,
        snap_getBip44Entropy 506 = Return bip44Node ->
        getBIP44AddressKeyDeriver bip44Node addressIndex = Return addressKey ->
        snap_dialog
          (SignMessageDialog origin
             match PublicKey_fromBytes
                     (Js.Buffer_from_hex
                        ("02" +:+ slice2 (compressedPublicKey addressKey))) with
             | Return pk => pk_toHex pk
             | Throw _ => ""
             end message) = Throw e ->
        fst (signMessage message origin addressIndex w) = Throw e).
Proof.
  split; [|split].
  - unfold_handler. repeat case_match; simplify_eq; intros [= <- <-]; eauto.
  - unfold_handler. repeat case_match; simplify_eq; try done.
  - intros bip44Node addressKey Hnode Hkey. unfold_handler.
    rewrite Hnode, Hkey.
    destruct (PublicKey_fromBytes _) as [pk|e'];
      cbn [publicKey_of default from_option]; unfold id;
      by intros ->.
Qed.

Lemma sign_throws_only_from_the_address_step_witness :
  fst (signMessage (H := Fixture.sdk) (H0 := Samples.failingHost) (Some "hi")
         "dapp" 0 initial_world)
  = Throw (mkExn "Error" "dialog closed").
Proof.
  destruct (sign_throws_only_from_the_address_step (H := Fixture.sdk)
              (H0 := Samples.failingHost) JsonUndefined (Some "hi") "dapp" 0
              initial_world initial_world (mkExn "Error" "dialog closed"))
    as (_ & _ & Hmessage).
  apply (Hmessage [x2a] (Fixture.keyOf "ed25519")); reflexivity.
Defined.

(** X19: a request [sign] cannot decode is answered with an error result,
    not thrown, and the user is never asked: when [Transaction.fromJson]
    throws no transaction object exists, and when the decoder throws on
    the parsed transaction the object is left as parsed; in both cases no
    dialog is shown and nothing is signed. *)
Theorem sign_undecodable_request `{Sdk} `{Host} (deployJson : Json)
    (origin : string) (addressIndex : Z) (bip44Node : list byte)
    (addressKey : AddressKey) (pk : PublicKey) (e : Exn) (w : World) :
  snap_getBip44Entropy 506 = Return bip44Node ->
  getBIP44AddressKeyDeriver bip44Node addressIndex = Return addressKey ->
  PublicKey_fromBytes
    (Js.Buffer_from_hex ("02" +:+ slice2 (compressedPublicKey addressKey)))
  = Return pk ->
  pk_toHex pk <> "" ->
  let failure :=
    RError (JSON_stringify_Error e +:+ " " +:+ Error_toString e
            +:+ " Unable to convert json into deploy object.") in
  (Transaction_fromJson deployJson = Throw e ->
   sign deployJson origin addressIndex w
   = (Return failure,
      mkWorld (events w ++ [EvGetBip44Entropy 506; EvDeriveKey addressIndex])%list
        (transaction_object w)))
  /\ (forall transaction,
        Transaction_fromJson deployJson = Return transaction ->
        transactionToObject transaction (pk_toHex pk) = Throw e ->
        sign deployJson origin addressIndex w
        = (Return failure,
           mkWorld
             (events w ++ [EvGetBip44Entropy 506; EvDeriveKey addressIndex;
                           EvGetBip44Entropy 506; EvDeriveKey addressIndex])%list
             (Some transaction))).
Proof.
  intros Hnode Hkey Hpk Htruthy failure. split.
  - intros Hjson. unfold sign. unfold mbind at 1.
    rewrite (getCSPRAddress_returns _ _ _ _ _ Hnode Hkey Hpk).
    cbn [publicKey_of default]. rewrite (truthy_Some _ Htruthy).
    cbn [negb]. unfold mbind, mtry, lift, mret. by rewrite Hjson.
  - intros transaction Hjson Hdecode. unfold sign. unfold mbind at 1.
    rewrite (getCSPRAddress_returns _ _ _ _ _ Hnode Hkey Hpk).
    cbn [publicKey_of default]. rewrite (truthy_Some _ Htruthy).
    cbn [negb]. unfold id.
    unfold mbind, mtry, lift, store_transaction, request_entropy, derive,
      promptUserDeployInfo, dialog, emit, mret, lift, mbind.
    cbn [events transaction_object].
    rewrite Hjson, Hnode, Hkey, Hdecode. by rewrite <- !app_assoc.
Qed.

Lemma sign_undecodable_request_witness :
  sign (H := Fixture.sdk) (H0 := Fixture.host) (JsonText "empty") "dapp" 1
    initial_world
  = (Return
       (RError
          ("{} Error: Stored Contract could not be parsed." +:+ LF
           +:+ "          Provided session code: 0,42,255"
           +:+ " Unable to convert json into deploy object.")),
     mkWorld [EvGetBip44Entropy 506; EvDeriveKey 1;
              EvGetBip44Entropy 506; EvDeriveKey 1]
       (Some (Fixture.legacy Fixture.emptySession))).
Proof.
  apply (sign_undecodable_request (H := Fixture.sdk) (H0 := Fixture.host)
           (JsonText "empty") "dapp" 1 [x2a] (Fixture.keyOf "ed25519")
           (mkPublicKey "0202ab")
           (mkExn "Error"
              ("Stored Contract could not be parsed." +:+ LF
               +:+ "          Provided session code: 0,42,255"))
           initial_world); try reflexivity; discriminate.
Defined.

(** X20: when the public key of the derived key cannot be parsed, the
    address handler returns an error that names the key's curve instead of
    throwing, and [sign] returns the error that no public key could be got
    at the index: it parses no request, shows no dialog and signs
    nothing. *)
Theorem unparseable_public_key `{Sdk} `{Host} (deployJson : Json)
    (origin : string) (addressIndex : Z) (bip44Node : list byte)
    (addressKey : AddressKey) (e : Exn) (w : World) :
  snap_getBip44Entropy 506 = Return bip44Node ->
  getBIP44AddressKeyDeriver bip44Node addressIndex = Return addressKey ->
  PublicKey_fromBytes
    (Js.Buffer_from_hex ("02" +:+ slice2 (compressedPublicKey addressKey)))
  = Throw e ->
  let after :=
    mkWorld (events w ++ [EvGetBip44Entropy 506; EvDeriveKey addressIndex])%list
      (transaction_object w) in
  getCSPRAddress addressIndex w
  = (Return
       (RError
          (Error_toString e +:+ " Unsupported curve. Received "
           +:+ curve addressKey +:+ ". "
           +:+ Js.N_toString
                 (N.of_nat (length (compressedPublicKeyBytes addressKey)))
           +:+ " " +:+ key_publicKey addressKey +:+ " "
           +:+ slice2 (compressedPublicKey addressKey)
           +:+ " Only Secp256K1 && Ed25519 are supported.")), after)
  /\ sign deployJson origin addressIndex w
     = (Return (RError ("Unable to get public key at index "
                        +:+ Js.Z_toString addressIndex +:+ ".")), after).
Proof.
  intros Hnode Hkey Hpk after.
  pose proof (getCSPRAddress_derived addressIndex bip44Node addressKey w
                Hnode Hkey) as Haddr.
  rewrite Hpk in Haddr. fold after in Haddr.
  split; [exact Haddr|].
  unfold sign. unfold mbind at 1. by rewrite Haddr.
Qed.

Lemma unparseable_public_key_witness :
  sign (H := Fixture.sdk) (H0 := Samples.shortKeyHost) (JsonText "transfer")
    "dapp" 4 initial_world
  = (Return (RError "Unable to get public key at index 4."),
     mkWorld [EvGetBip44Entropy 506; EvDeriveKey 4] None).
Proof.
  apply (unparseable_public_key (H := Fixture.sdk) (H0 := Samples.shortKeyHost)
           (JsonText "transfer") "dapp" 4 [x2a]
           (mkAddressKey "0x" [] "0x04ab" (Some [x07]) "bls12381")
           (mkExn "Error" "invalid public key") initial_world);
    reflexivity.
Defined.

(** X21: a key without private bytes is found out only after the user has
    accepted the dialog: [sign] then returns the error that no private key
    is associated with the account at the index, having signed nothing and
    left the transaction as parsed. *)
Theorem sign_without_private_key `{Sdk} `{Host} (deployJson : Json)
    (origin : string) (addressIndex : Z) (bip44Node : list byte)
    (addressKey : AddressKey) (pk : PublicKey) (transaction : Transaction)
    (deployInfo : DeployInfo) (w : World) :
  snap_getBip44Entropy 506 = Return bip44Node ->
  getBIP44AddressKeyDeriver bip44Node addressIndex = Return addressKey ->
  PublicKey_fromBytes
    (Js.Buffer_from_hex ("02" +:+ slice2 (compressedPublicKey addressKey)))
  = Return pk ->
  pk_toHex pk <> "" ->
  Transaction_fromJson deployJson = Return transaction ->
  transactionToObject transaction (pk_toHex pk) = Return deployInfo ->
  snap_dialog (SignDeployDialog origin deployInfo transaction) = Return true ->
  privateKeyBytes addressKey = None ->
  sign deployJson origin addressIndex w
  = (Return (RError ("No private key associated with the account "
                     +:+ Js.Z_toString addressIndex +:+ ".")),
     mkWorld
       (events w ++ [EvGetBip44Entropy 506; EvDeriveKey addressIndex;
                     EvGetBip44Entropy 506; EvDeriveKey addressIndex;
                     EvDialog (SignDeployDialog origin deployInfo transaction)])%list
       (Some transaction)).
Proof.
  intros Hnode Hkey Hpk Htruthy Hjson Hinfo Hyes Hnone.
  pose proof (sign_run deployJson origin addressIndex bip44Node addressKey pk
                transaction deployInfo w Hnode Hkey Hpk Htruthy Hjson Hinfo)
    as Hrun.
  cbv zeta in Hrun. by rewrite Hyes, Hnone in Hrun.
Qed.

Lemma sign_without_private_key_witness :
  fst (sign (H := Fixture.sdk) (H0 := Samples.watchOnlyHost)
         (JsonText "transfer") "dapp" 3 initial_world)
  = Return (RError "No private key associated with the account 3.").
Proof.
  rewrite (sign_without_private_key (H := Fixture.sdk)
             (H0 := Samples.watchOnlyHost) (JsonText "transfer") "dapp" 3
             [x2a]
             (mkAddressKey "0x02ab" [x02; xab] "0x04ab" None "ed25519")
             (mkPublicKey "0202ab") (Fixture.legacy Fixture.transferSession)
             (mkDeployInfo "deadbeef" "0202ab"
                (Some (pk_toHex Fixture.signerKey)) (Some "0102")
                "casper-test" "0" (Some "1") "Transfer"
                (parseTransferData (H := Fixture.sdk) Fixture.transferItem))
             initial_world); try reflexivity; discriminate.
Defined.

(** X22: once the user has accepted, [signMessage] signs the bytes of
    ["Casper Message:"], a line feed and the message, and returns the
    signature in hexadecimal: with [nacl.sign_detached] on those bytes for
    an ed25519 key, with [ecdsaSign] on their SHA-256 digest for a
    secp256k1 key, throwing what the primitive or [sha256] throws; for
    another curve it returns the unsupported-curve error and for a key
    without private bytes the no-private-key error, signing nothing.  The
    dialog shows the public key when it could be parsed and the empty
    string otherwise. *)
Theorem signMessage_dispatch `{Sdk} `{Host} (message : option string)
    (origin : string) (addressIndex : Z) (bip44Node : list byte)
    (addressKey : AddressKey) (w : World) :
  snap_getBip44Entropy 506 = Return bip44Node ->
  getBIP44AddressKeyDeriver bip44Node addressIndex = Return addressKey ->
  let shownKey :=
    match PublicKey_fromBytes
            (Js.Buffer_from_hex
               ("02" +:+ slice2 (compressedPublicKey addressKey))) with
    | Return pk => pk_toHex pk
    | Throw _ => ""
    end in
  let prompted :=
    (events w ++ [EvGetBip44Entropy 506; EvDeriveKey addressIndex;
                  EvGetBip44Entropy 506; EvDeriveKey addressIndex;
                  EvDialog (SignMessageDialog origin shownKey message)])%list in
  let messageBytes :=
    Buffer_from_string
      ("Casper Message:" +:+ LF +:+ to_string (of_option_string message)) in
  let signed (outcome : completion (list byte)) : completion Response :=
    match outcome with
    | Return signature => Return (RSignature (Js.encodeBase16 signature))
    | Throw e => Throw e
    end in
  snap_dialog (SignMessageDialog origin shownKey message) = Return true ->
  signMessage message origin addressIndex w
  = match privateKeyBytes addressKey with
    | Some privateKey =>
        if String.eqb (curve addressKey) "ed25519" then
          (signed (sign_detached messageBytes privateKey),
           mkWorld (prompted ++ [EvSignDetached messageBytes privateKey])%list
             (transaction_object w))
        else if String.eqb (curve addressKey) "secp256k1" then
          match sha256 messageBytes with
          | Return digest =>
              (signed (ecdsaSign digest privateKey),
               mkWorld (prompted ++ [EvEcdsaSign digest privateKey])%list
                 (transaction_object w))
          | Throw e => (Throw e, mkWorld prompted (transaction_object w))
          end
        else
          (Return (RError ("Unsupported curve : " +:+ curve addressKey
                           +:+ ". Only Secp256K1 && Ed25519 are supported.")),
           mkWorld prompted (transaction_object w))
    | None =>
        (Return (RError "No private key associated with the account."),
         mkWorld prompted (transaction_object w))
    end.
Proof.
  intros Hnode Hkey shownKey prompted messageBytes signed Hyes.
  unfold signMessage, getCSPRAddress, request_entropy, derive, dialog,
    nacl_sign_detached, secp256k1_ecdsaSign, mbind, mtry, emit, mret, lift.
  cbn [events transaction_object]. rewrite Hnode, Hkey.
  subst prompted signed. fold messageBytes.
  destruct (PublicKey_fromBytes _) as [pk|e]; subst shownKey;
    cbn [publicKey_of default from_option events transaction_object];
    unfold id; rewrite Hyes; cbn [negb];
    destruct (privateKeyBytes addressKey) as [privateKey|];
    repeat (destruct (String.eqb _ _));
    cbn [events transaction_object];
    repeat case_match; cbn [events transaction_object];
    by rewrite <- !app_assoc.
Qed.

Lemma signMessage_dispatch_witness :
  fst (signMessage (H := Fixture.sdk) (H0 := Fixture.host) (Some "hi") "dapp" 0
         initial_world)
  = Return
      (RSignature
         (Js.encodeBase16
            (xec :: rev (Buffer_from_string ("Casper Message:" +:+ LF +:+ "hi"))
             ++ [x07])%list)).
Proof.
  rewrite (signMessage_dispatch (H := Fixture.sdk) (H0 := Fixture.host)
             (Some "hi") "dapp" 0 [x2a] (Fixture.keyOf "secp256k1")
             initial_world);
    reflexivity.
Defined.

Section shown_and_signed.
Context `{Sdk}.

Lemma transactionToObject_key_and_hash (transaction : Transaction)
    (key : string) (info : DeployInfo) :
  transactionToObject transaction key = Return info ->
  signingKey info = key
  /\ deployHash info = Js.encodeBase16 (tx_hash transaction).
Proof.
  unfold transactionToObject.
  destruct (originDeployV1 transaction) as [deploy|].
  - destruct (deploy_args deploy) as [m|e]; [|discriminate].
    cbn [cbind]. by intros [= <-].
  - destruct (originTransactionV1 transaction); [|discriminate].
    destruct (forEach_parse (tx_args transaction) ∅) as [m|e]; [|discriminate].
    cbn [cbind]. by intros [= <-].
Qed.

End shown_and_signed.

(** X23: what [sign] attaches is what the dialog showed: after the user
    accepts, with a key of a supported curve that has private bytes and a
    signature primitive that returns, the transaction object gets exactly
    one more approval, whose signer is the key parsed from the signing key
    of the view shown and whose signature is made, with the curve's
    primitive, over the bytes of the hash the view shows; this holds
    whether the validation that follows returns or throws. *)
Theorem signed_what_was_shown `{Sdk} `{Host} (deployJson : Json)
    (origin : string) (addressIndex : Z) (bip44Node : list byte)
    (addressKey : AddressKey) (pk : PublicKey) (transaction : Transaction)
    (deployInfo : DeployInfo) (privateKey signature : list byte)
    (signer : PublicKey) (w : World) :
  snap_getBip44Entropy 506 = Return bip44Node ->
  getBIP44AddressKeyDeriver bip44Node addressIndex = Return addressKey ->
  PublicKey_fromBytes
    (Js.Buffer_from_hex ("02" +:+ slice2 (compressedPublicKey addressKey)))
  = Return pk ->
  pk_toHex pk <> "" ->
  Transaction_fromJson deployJson = Return transaction ->
  transactionToObject transaction (pk_toHex pk) = Return deployInfo ->
  snap_dialog (SignDeployDialog origin deployInfo transaction) = Return true ->
  privateKeyBytes addressKey = Some privateKey ->
  PublicKey_fromHex (signingKey deployInfo) = Return signer ->
  let shownHash := Js.Buffer_from_hex (deployHash deployInfo) in
  (curve addressKey = "ed25519"
   /\ sign_detached shownHash privateKey = Return signature)
  \/ (curve addressKey = "secp256k1"
      /\ exists digest,
           sha256 shownHash = Return digest
           /\ ecdsaSign digest privateKey = Return signature) ->
  exists signed,
    transaction_object (snd (sign deployJson origin addressIndex w))
    = Some signed
    /\ approvals signed
       = (approvals transaction ++ [mkApproval signer signature])%list
    /\ tx_hash signed = tx_hash transaction.
Proof.
  intros Hnode Hkey Hpk Htruthy Hjson Hinfo Hyes Hpriv Hsigner shownHash
    Hsigned.
  pose proof (sign_run deployJson origin addressIndex bip44Node addressKey pk
                transaction deployInfo w Hnode Hkey Hpk Htruthy Hjson Hinfo)
    as Hrun.
  cbv zeta in Hrun. rewrite Hyes, Hpriv in Hrun.
  destruct (transactionToObject_key_and_hash _ _ _ Hinfo) as [Hk Hh].
  subst shownHash. rewrite Hh, Buffer_from_hex_encodeBase16 in Hsigned.
  rewrite Hk in Hsigner. rewrite Hrun.
  destruct Hsigned as [[Hc Hsig]|(Hc & digest & Hdigest & Hsig)]; rewrite Hc.
  - rewrite String.eqb_refl, Hsig. cbn [snd transaction_object].
    rewrite addSignature_object, Hsigner. by eexists.
  - destruct (String.eqb_spec "secp256k1" "ed25519") as [Heq|_];
      [discriminate Heq|].
    rewrite String.eqb_refl, Hdigest, Hsig. cbn [snd transaction_object].
    rewrite addSignature_object, Hsigner. by eexists.
Qed.

Lemma signed_what_was_shown_witness :
  exists signed,
    transaction_object
      (snd (sign (H := Fixture.sdk) (H0 := Fixture.host) (JsonText "transfer")
              "dapp" 0 initial_world)) = Some signed
    /\ approvals signed
       = [mkApproval (mkPublicKey "0202ab") [xec; xef; xbe; xad; xde; x07]].
Proof.
  destruct (signed_what_was_shown (H := Fixture.sdk) (H0 := Fixture.host)
              (JsonText "transfer") "dapp" 0 [x2a] (Fixture.keyOf "secp256k1")
              (mkPublicKey "0202ab") (Fixture.legacy Fixture.transferSession)
              (mkDeployInfo "deadbeef" "0202ab"
                 (Some (pk_toHex Fixture.signerKey)) (Some "0102")
                 "casper-test" "0" (Some "1") "Transfer"
                 (parseTransferData (H := Fixture.sdk) Fixture.transferItem))
              [x07] [xec; xef; xbe; xad; xde; x07] (mkPublicKey "0202ab")
              initial_world)
    as (signed & Hobj & Happ & _);
    try reflexivity; [discriminate | right; split; [reflexivity|] |].
  - exists [xef; xbe; xad; xde]. by split.
  - exists signed. split; [exact Hobj | exact Happ].
Defined.

(** X24: the request handler goes by the method name alone: a name other
    than the three it knows throws ["Method not found."] before any
    collaborator is called, and the three names run the address handler,
    [sign] and [signMessage] with the index of the request, or with index
    0 when the request carries none. *)
Theorem request_routing `{Sdk} `{Host} (origin : string) (request : Request)
    (w : World) :
  let addressIndex := default 0%Z (params request ≫= param_addressIndex) in
  (method request <> "casper_getAccount" ->
   method request <> "casper_sign" ->
   method request <> "casper_signMessage" ->
   onRpcRequest origin request w
   = (Throw (mkExn "Error" "Method not found."), w))
  /\ (method request = "casper_getAccount" ->
      onRpcRequest origin request w = getCSPRAddress addressIndex w)
  /\ (method request = "casper_sign" ->
      onRpcRequest origin request w
      = sign (default JsonUndefined (params request ≫= param_deployJson))
          origin addressIndex w)
  /\ (method request = "casper_signMessage" ->
      onRpcRequest origin request w
      = signMessage (params request ≫= param_message) origin addressIndex w).
Proof.
  intros addressIndex. unfold onRpcRequest. fold addressIndex.
  split; [|split; [|split]].
  - intros H1 H2 H3.
    destruct (String.eqb_spec (method request) "casper_getAccount"); [done|].
    destruct (String.eqb_spec (method request) "casper_sign"); [done|].
    by destruct (String.eqb_spec (method request) "casper_signMessage").
  - intros ->. reflexivity.
  - intros ->. reflexivity.
  - intros ->. reflexivity.
Qed.

Lemma request_routing_witness :
  onRpcRequest (H := Fixture.sdk) (H0 := Fixture.host) "dapp"
    (mkRequest "foo" None) initial_world
  = (Throw (mkExn "Error" "Method not found."), initial_world).
Proof.
  apply (request_routing (H := Fixture.sdk) (H0 := Fixture.host) "dapp"
           (mkRequest "foo" None) initial_world); discriminate.
Defined.
